(** * Solar PV performance analysis: a shallow embedding of [solar_analysis.py]

    The script reads per-period CSV files of daily performance ratio (PR) and
    irradiance (GHI), joins them on [Date], derives a rolling mean, a
    degradation budget line, GHI colour bands, trailing averages and yearly
    budget-exceedance counts, and renders a chart.

    Modelling conventions.
    - A pandas [DataFrame] is a list of rows in index order; a [Series] is a
      list of cells.
    - A [datetime64[ns]] value is an integer count of nanoseconds since the
      epoch (type [Timestamp]); [NaT] is [None] where it can arise.
    - A [float64] cell is [NaN] or a finite value.  Finite values are
      idealised as real numbers: rounding, overflow and infinities are outside
      the model, comparisons and NaN propagation are inside it.
    - Library calls ([pd.merge], [Series.rolling], [Series.mean],
      [Series.unique], [pd.concat], [list.sort], [.dt.year]) are embedded by
      their documented behaviour, each next to the line of the script that
      calls it.
    - The operating system ([glob.glob], [pd.read_csv]) is an explicit
      environment record. *)

From Stdlib Require Import List ZArith Reals Lra Lia Bool Permutation Sorted.
From Stdlib Require Strings.String.
From Stdlib Require Import Strings.Ascii.
Import String.StringSyntax.
Delimit Scope string_scope with string.
Import ListNotations.

Set Implicit Arguments.

(** ** Cells, timestamps and rows *)

Inductive float : Type :=
| NaN : float
| Fin : R -> float.

Definition Timestamp : Type := Z.

(** Nanoseconds in one day, the unit behind [timedelta(days=n)] and
    [Series.dt.days]. *)
Definition day_ns : Z := 86400000000000.

Definition timedelta (days : Z) : Z := (days * day_ns)%Z.

(** One measurement table, as [pd.read_csv] followed by [pd.to_datetime] on
    the [Date] column gives it: a [Date] and one numeric column.  A file
    that lacks a column, or whose dates do not parse, is outside the
    tables represented here. *)
Definition table : Type := list (Timestamp * float).

(** A row of the merged frame, columns [Date], [GHI], [PR]. *)
Record row : Type := mkRow {
  Date : Timestamp;
  GHI : float;
  PR : float
}.

Definition frame : Type := list row.

(** ** The merger: lines 46-54 of [process_data] *)

Definition same_date (d : Timestamp) (r : Timestamp * float) : bool :=
  (fst r =? d)%Z.

(** [pd.merge(pr_combined, ghi_combined, on='Date', how='inner')] followed by
    the projection to [Date], [GHI], [PR].  An inner join keeps the order of
    the left keys; a left row that matches several right rows yields one
    output row per match, in the order of the right table. *)
Definition merge (pr_combined ghi_combined : table) : frame :=
  flat_map
    (fun l => map (fun r => mkRow (fst l) (snd r) (snd l))
                  (filter (same_date (fst l)) ghi_combined))
    pr_combined.

Definition dates (t : table) : list Timestamp := map fst t.

Definition count_date (d : Timestamp) (t : table) : nat :=
  length (filter (same_date d) t).

Fixpoint sum_nat (l : list nat) : nat :=
  match l with
  | [] => 0
  | n :: l' => n + sum_nat l'
  end.

(** ** The file loader: lines 22-44 of [process_data] *)

Inductive error : Type :=
| ValueError_no_objects_to_concatenate : error
| ReadError : String.string -> error.

Inductive result (A : Type) : Type :=
| Ok : A -> result A
| Raise : error -> result A.

Arguments Ok {A} _.
Arguments Raise {A} _.

Definition bind {A B : Type} (m : result A) (k : A -> result B) : result B :=
  match m with
  | Ok a => k a
  | Raise e => Raise e
  end.

Notation "x <- m ;; k" := (bind m (fun x => k))
  (at level 61, m at next level, right associativity).

(** What the script sees of the operating system: [os.path.join] for the
    platform, [glob.glob] (which lists matches in an order of the platform's
    choosing) and [pd.read_csv] (which raises on a missing or malformed
    file). *)
Record OS : Type := mkOS {
  os_path_join : String.string -> list String.string -> String.string;
  glob : String.string -> list String.string;
  read_csv : String.string -> result table
}.

(** [list.sort()] on path strings: ascending by code point, stable. *)
Fixpoint insert_sorted (p : String.string) (l : list String.string)
  : list String.string :=
  match l with
  | [] => [p]
  | q :: l' => if String.leb p q then p :: q :: l' else q :: insert_sorted p l'
  end.

Fixpoint sort (l : list String.string) : list String.string :=
  match l with
  | [] => []
  | p :: l' => insert_sorted p (sort l')
  end.

(** The loop [for file in files: df = pd.read_csv(file); list.append(df)]:
    files are read left to right and the first failure aborts. *)
Fixpoint read_all (os : OS) (files : list String.string) : result (list table) :=
  match files with
  | [] => Ok []
  | file :: rest =>
      df <- read_csv os file ;;
      data_list <- read_all os rest ;;
      Ok (df :: data_list)
  end.

(** [pd.concat(data_list, ignore_index=True)]: rows of all tables in list
    order; an empty list raises [ValueError]. *)
Definition pd_concat (data_list : list table) : result table :=
  match data_list with
  | [] => Raise ValueError_no_objects_to_concatenate
  | _ :: _ => Ok (concat data_list)
  end.

Definition load (os : OS) (path : String.string) : result table :=
  let files := sort (glob os (os_path_join os path ["*"; "*.csv"]%string)) in
  data_list <- read_all os files ;;
  pd_concat data_list.

Definition process_data (os : OS) (pr_path ghi_path : String.string)
  : result frame :=
  pr_combined <- load os pr_path ;;
  ghi_combined <- load os ghi_path ;;
  Ok (merge pr_combined ghi_combined).

(** ** Series helpers used by [create_visualization] *)

Fixpoint finite_values (s : list float) : list R :=
  match s with
  | [] => []
  | NaN :: s' => finite_values s'
  | Fin x :: s' => x :: finite_values s'
  end.

Fixpoint sum_R (l : list R) : R :=
  match l with
  | [] => 0%R
  | x :: l' => (x + sum_R l')%R
  end.

Definition count_R (l : list R) : R := IZR (Z.of_nat (length l)).

(** [Series.mean()]: the mean of the non-NaN cells, NaN when there are none. *)
Definition series_mean (s : list float) : float :=
  match finite_values s with
  | [] => NaN
  | x :: obs => Fin (sum_R (x :: obs) / count_R (x :: obs))
  end.

Definition slice {A : Type} (start stop : nat) (s : list A) : list A :=
  firstn (stop - start) (skipn start s).

(** [Series.rolling(window, center=True).mean()] with the default
    [min_periods = window].  The fixed-window indexer places the window of
    row [i] at positions [i + 1 + offset - window, i + 1 + offset) with
    [offset = (window - 1) // 2], clipped to the series; the cell is NaN
    unless the window holds at least [window] non-NaN observations. *)
Definition rolling_mean_at (window : nat) (s : list float) (i : nat) : float :=
  let offset := (window - 1) / 2 in
  let stop := Nat.min (i + 1 + offset) (length s) in
  let start := Nat.min (i + 1 + offset - window) (length s) in
  let obs := finite_values (slice start stop s) in
  if window <=? length obs then Fin (sum_R obs / count_R obs) else NaN.

Definition rolling_mean (window : nat) (s : list float) : list float :=
  map (rolling_mean_at window s) (seq 0 (length s)).

(** [Series.min()] and [Series.max()] of a datetime column; [None] is NaT,
    the answer on an empty column. *)
Definition series_min (s : list Timestamp) : option Timestamp :=
  match s with
  | [] => None
  | d :: s' => Some (fold_left Z.min s' d)
  end.

Definition series_max (s : list Timestamp) : option Timestamp :=
  match s with
  | [] => None
  | d :: s' => Some (fold_left Z.max s' d)
  end.

(** [Series.unique()]: the distinct values in order of first appearance. *)
Fixpoint unique (s : list Z) : list Z :=
  match s with
  | [] => []
  | y :: s' => y :: filter (fun z => negb (z =? y)%Z) (unique s')
  end.

(** [Series.dt.year]: the day count since the epoch is split into 400-year
    cycles counted from 2000-01-01, then into centuries, 4-year groups and
    years, as the datetime library does. *)
Definition days_per_400years : Z := 400 * 365 + 100 - 4 + 1.

Definition days_to_year (days_ : Z) : Z :=
  let days := (days_ - (365 * 30 + 7))%Z in
  let year := (400 * (days / days_per_400years))%Z in
  let days := (days mod days_per_400years)%Z in
  let year :=
    if (366 <=? days)%Z then
      let year := (year + 100 * ((days - 1) / (100 * 365 + 25 - 1)))%Z in
      let days := ((days - 1) mod (100 * 365 + 25 - 1))%Z in
      if (365 <=? days)%Z then
        let year := (year + 4 * ((days + 1) / (4 * 365 + 1)))%Z in
        let days := ((days + 1) mod (4 * 365 + 1))%Z in
        if (366 <=? days)%Z then (year + (days - 1) / 365)%Z else year
      else year
    else year in
  (year + 2000)%Z.

Definition dt_year (t : Timestamp) : Z := days_to_year (t / day_ns).

(** Comparisons of cells; any comparison with NaN is false. *)
Definition float_lt (a b : float) : bool :=
  match a, b with
  | Fin x, Fin y => if Rlt_dec x y then true else false
  | _, _ => false
  end.

Definition float_gt (a b : float) : bool := float_lt b a.

(** ** [create_visualization] *)

(** A row of the frame after all derived columns are added; [base] holds
    [Date], [GHI] and [PR]. *)
Record derived_row : Type := mkDerived {
  base :> row;
  PR_30MA : float;
  days_from_start : option Z;
  years_from_start : float;
  budget_line : float;
  color : String.string;
  year : Z
}.

(** Lines 67-74: the optional date filter.  [None] stands for an argument
    that is [None] or otherwise falsy; a bound that is given is already
    parsed by [pd.to_datetime]. *)
Definition filter_dates (start_date end_date : option Timestamp) (df : frame)
  : frame :=
  let df :=
    match start_date with
    | Some s => filter (fun r => (s <=? Date r)%Z) df
    | None => df
    end in
  match end_date with
  | Some e => filter (fun r => (Date r <=? e)%Z) df
  | None => df
  end.

(** Lines 79-85: the budget line. *)
Definition start_budget : R := 73.9.
Definition annual_degradation : R := 0.008.

Definition budget (years : R) : R :=
  (start_budget * Rpower (1 - annual_degradation) years)%R.

Definition days_since (start_date_data : option Timestamp) (d : Timestamp)
  : option Z :=
  match start_date_data with
  | Some d0 => Some ((d - d0) / day_ns)%Z
  | None => None
  end.

Definition years_of_days (days : option Z) : float :=
  match days with
  | Some n => Fin (IZR n / 365.25)
  | None => NaN
  end.

Definition budget_of_years (years : float) : float :=
  match years with
  | Fin y => Fin (budget y)
  | NaN => NaN
  end.

(** Lines 88-96. *)
Definition get_color (ghi_value : float) : String.string :=
  if float_lt ghi_value (Fin 2) then "navy"%string
  else if float_lt ghi_value (Fin 4) then "lightblue"%string
  else if float_lt ghi_value (Fin 6) then "orange"%string
  else "brown"%string.

(** Lines 166-174: [ranges.get(color, '')]. *)
Definition get_ghi_range (color : String.string) : String.string :=
  if String.eqb color "navy" then "<2"%string
  else if String.eqb color "lightblue" then "2-4"%string
  else if String.eqb color "orange" then "4-6"%string
  else if String.eqb color "brown" then ">6"%string
  else ""%string.

Definition ghi_band (ghi_value : float) : String.string :=
  get_ghi_range (get_color ghi_value).

(** Lines 76-98 and 131: every derived column of the frame. *)
Definition derive (df : frame) : list derived_row :=
  let start_date_data := series_min (map Date df) in
  map (fun '(r, ma) =>
         let days := days_since start_date_data (Date r) in
         let years := years_of_days days in
         mkDerived r ma days years (budget_of_years years)
                   (get_color (GHI r)) (dt_year (Date r)))
      (combine df (rolling_mean 30 (map PR df))).

(** Lines 118-128: the trailing averages. *)
Definition after (bound : option Timestamp) (df : list derived_row)
  : list derived_row :=
  match bound with
  | Some t => filter (fun r : derived_row => (t <? Date r)%Z) df
  | None => []
  end.

Definition last_days (n : Z) (df : list derived_row) : list derived_row :=
  let latest_date := series_max (map (fun r : derived_row => Date r) df) in
  after (option_map (fun l => (l - timedelta n)%Z) latest_date) df.

Definition avg_day (n : Z) (df : list derived_row) : float :=
  series_mean (map (fun r : derived_row => PR r) (last_days n df)).

(** Lines 130-136: the yearly statistics.  A Python dict keeps insertion
    order, and the keys come from [unique()], so the dict is the list of its
    items. *)
Definition above_budget (year_data : list derived_row) : nat :=
  length (filter (fun r : derived_row => float_gt (PR r) (budget_line r))
                  year_data).

Definition yearly_stats (df : list derived_row) : list (Z * nat) :=
  map (fun y =>
         let year_data := filter (fun r => (year r =? y)%Z) df in
         (y, above_budget year_data))
      (unique (map year df)).

Fixpoint dict_get (y : Z) (d : list (Z * nat)) : option nat :=
  match d with
  | [] => None
  | (k, v) :: d' => if (k =? y)%Z then Some v else dict_get y d'
  end.

(** Lines 138-145: the text box, line by line.  An average is kept as the
    cell it formats. *)
Inductive text_line : Type :=
| TitleLine : text_line
| AvgLine : Z -> float -> text_line
| BlankLine : text_line
| HeaderLine : text_line
| YearLine : Z -> nat -> text_line.

Definition stats_text (avg_7_day avg_30_day avg_60_day : float)
  (stats : list (Z * nat)) : list text_line :=
  [TitleLine; AvgLine 7 avg_7_day; AvgLine 30 avg_30_day;
   AvgLine 60 avg_60_day; BlankLine; HeaderLine]
  ++ map (fun '(y, count) => YearLine y count) stats.

Fixpoint listed_years (t : list text_line) : list Z :=
  match t with
  | [] => []
  | YearLine y _ :: t' => y :: listed_years t'
  | _ :: t' => listed_years t'
  end.

(** Lines 103-116: what is drawn. *)
Record scatter_series : Type := mkScatter {
  scatter_color : String.string;
  scatter_label : String.string;
  scatter_points : list (Timestamp * float)
}.

Definition scatter (df : list derived_row) : list scatter_series :=
  flat_map
    (fun color_name =>
       let masked := filter (fun r => String.eqb (color r) color_name) df in
       match masked with
       | [] => []
       | _ :: _ =>
           [mkScatter color_name
              (String.append "GHI: " (get_ghi_range color_name))
              (map (fun r : derived_row => (Date r, PR r)) masked)]
       end)
    ["navy"; "lightblue"; "orange"; "brown"]%string.

Definition is_nan (x : float) : bool :=
  match x with
  | NaN => true
  | Fin _ => false
  end.

Definition valid_ma (df : list derived_row) : list derived_row :=
  filter (fun r => negb (is_nan (PR_30MA r))) df.

Record visualization : Type := mkVisualization {
  out_df : list derived_row;
  scatter_plot : list scatter_series;
  ma_line : list (Timestamp * float);
  budget_plot : list (Timestamp * float);
  avg_7_day : float;
  avg_30_day : float;
  avg_60_day : float;
  yearly : list (Z * nat);
  text_box : list text_line
}.

Definition create_visualization (df : frame)
  (start_date end_date : option Timestamp) : visualization :=
  let df := derive (filter_dates start_date end_date df) in
  let a7 := avg_day 7 df in
  let a30 := avg_day 30 df in
  let a60 := avg_day 60 df in
  let stats := yearly_stats df in
  mkVisualization df (scatter df)
    (map (fun r : derived_row => (Date r, PR_30MA r)) (valid_ma df))
    (map (fun r : derived_row => (Date r, budget_line r)) df)
    a7 a30 a60 stats (stats_text a7 a30 a60 stats).

(** ** [main] *)

Inductive artifact : Type :=
| CsvFile : String.string -> frame -> artifact
| ImageFile : String.string -> visualization -> artifact.

Definition pr_path : String.string :=
  "C:\Users\91989\Downloads\dataaa\data\PR"%string.
Definition ghi_path : String.string :=
  "C:\Users\91989\Downloads\dataaa\data\GHI"%string.

(** The run's outcome and the files it has written, in order, up to the
    point where [process_data] returns or raises; a failure of a write or of
    the plotting library after that point is not represented. *)
Definition main (os : OS) : result nat * list artifact :=
  match process_data os pr_path ghi_path with
  | Raise e => (Raise e, [])
  | Ok processed_data =>
      let final_data := create_visualization processed_data None None in
      (Ok (length (out_df final_data)),
       [CsvFile "processed_solar_data.csv"%string processed_data;
        ImageFile "solar_performance_analysis.png"%string final_data])
  end.

(** ** Vocabulary of the specification *)

(** The number of null cells a series starts with, and ends with. *)
Fixpoint leading_nulls (s : list float) : nat :=
  match s with
  | NaN :: s' => S (leading_nulls s')
  | _ => 0
  end.

Definition trailing_nulls (s : list float) : nat := leading_nulls (rev s).

(** The 40-row series with constant PR = 50 and its rolling mean. *)
Definition constant_series : list float := repeat (Fin 50) 40.

(** The rolling-mean property as the specification words it: defined cells
    are 50, and 14 cells are null at each end. *)
Definition rolling_edges_claim : Prop :=
  (forall i v, nth_error (rolling_mean 30 constant_series) i = Some (Fin v) ->
               v = 50%R) /\
  leading_nulls (rolling_mean 30 constant_series) = 14 /\
  trailing_nulls (rolling_mean 30 constant_series) = 14.

(** A frame row with the three cells the yearly loop reads; the other
    columns hold placeholders. *)
Definition stat_row (pr budget_value : R) (y : Z) : derived_row :=
  mkDerived (mkRow 0%Z NaN (Fin pr)) NaN None NaN (Fin budget_value) ""%string y.

Definition exceedance_example : list derived_row :=
  [stat_row 80 75 2020%Z; stat_row 70 75 2020%Z; stat_row 90 60 2021%Z].

(** The rows of one year that lie strictly above the budget. *)
Definition exceeds_in (y : Z) (r : derived_row) : bool :=
  (year r =? y)%Z && float_gt (PR r) (budget_line r).

(** The rows an inclusive date range keeps. *)
Definition within (s e : Timestamp) (r : row) : bool :=
  (s <=? Date r)%Z && (Date r <=? e)%Z.

(** The text-box order as the specification words it: ascending by year. *)
Definition text_box_sorted_claim : Prop :=
  forall (df : frame) (start_date end_date : option Timestamp),
    Sorted Z.le
      (listed_years (text_box (create_visualization df start_date end_date))).

(** Two rows, the first of 2021-01-01 and the second of 2020-01-01. *)
Definition descending_frame : frame :=
  [mkRow (timedelta 18628) (Fin 5) (Fin 75);
   mkRow (timedelta 18262) (Fin 3) (Fin 70)].

(** The glob pattern of one measurement tree. *)
Definition csv_pattern (os : OS) (path : String.string) : String.string :=
  os_path_join os path ["*"; "*.csv"]%string.

(** A machine on which neither data directory exists: nothing matches and
    nothing can be read. *)
Definition bare_os : OS :=
  mkOS (fun path parts => String.concat "/" (path :: parts))
       (fun _ => [])
       (fun file => Raise (ReadError file)).

(** Two machines holding the same four files, which [glob] lists in opposite
    orders. *)
Definition sample_read (file : String.string) : result table :=
  if String.eqb file "d/PR/2020/a.csv" then Ok [(timedelta 18262, Fin 75)]
  else if String.eqb file "d/PR/2021/a.csv" then Ok [(timedelta 18628, Fin 74)]
  else if String.eqb file "d/GHI/2020/a.csv" then Ok [(timedelta 18262, Fin 5)]
  else if String.eqb file "d/GHI/2021/a.csv" then Ok [(timedelta 18628, Fin 3)]
  else Raise (ReadError file).

Definition sample_glob (pattern : String.string) : list String.string :=
  if String.eqb pattern "d/PR/*/*.csv"
  then ["d/PR/2020/a.csv"; "d/PR/2021/a.csv"]%string
  else if String.eqb pattern "d/GHI/*/*.csv"
  then ["d/GHI/2020/a.csv"; "d/GHI/2021/a.csv"]%string
  else [].

Definition sample_os : OS :=
  mkOS (fun path parts => String.concat "/" (path :: parts))
       sample_glob sample_read.

Definition sample_os_reversed : OS :=
  mkOS (fun path parts => String.concat "/" (path :: parts))
       (fun pattern => rev (sample_glob pattern)) sample_read.

(** The merged frame of the sample machines and the second of its derived
    rows. *)
Definition sample_frame : frame :=
  [mkRow (timedelta 18262) (Fin 5) (Fin 75);
   mkRow (timedelta 18628) (Fin 3) (Fin 74)].

Definition sample_row : derived_row :=
  nth 1 (out_df (create_visualization sample_frame None None))
      (stat_row 0 0 0).

(** Two small tables that share one date. *)
Definition sample_pr : table := [(0%Z, Fin 75); (timedelta 1, Fin 74)].
Definition sample_ghi : table := [(timedelta 1, Fin 5); (timedelta 2, Fin 3)].

(** The merge bound as the specification words it: for non-empty inputs
    sharing a date, the merged size is at most the smaller input and every merged date
    occurs in both inputs. *)
Definition merge_bound_claim : Prop :=
  forall pr ghi : table,
    pr <> [] -> ghi <> [] ->
    (exists d, In d (dates pr) /\ In d (dates ghi)) ->
    length (merge pr ghi) <= Nat.min (length pr) (length ghi) /\
    (forall m, In m (merge pr ghi) ->
               In (Date m) (dates pr) /\ In (Date m) (dates ghi)).

(** The order [list.sort()] puts paths in. *)
Definition path_le (p q : String.string) : Prop := String.leb p q = true.

(** A machine whose PR tree lists one readable file and one that cannot be
    read. *)
Definition broken_os : OS :=
  mkOS (fun path parts => String.concat "/" (path :: parts))
       (fun _ => ["d/PR/2021/zz.csv"; "d/PR/2020/a.csv"]%string)
       sample_read.

(** [file] is read as the table [t]. *)
Definition reads (os : OS) (file : String.string) (t : table) : Prop :=
  read_csv os file = Ok t.

(** The rows the optional bounds let through, as one test. *)
Definition in_bounds (start_date end_date : option Timestamp) (r : row)
  : bool :=
  match start_date with Some a => (a <=? Date r)%Z | None => true end &&
  match end_date with Some b => (Date r <=? b)%Z | None => true end.

(** What is drawn and reported when no row is left. *)
Definition empty_visualization : visualization :=
  mkVisualization [] [] [] [] NaN NaN NaN []
    [TitleLine; AvgLine 7 NaN; AvgLine 30 NaN; AvgLine 60 NaN;
     BlankLine; HeaderLine].

(** The colours [get_color] can return, in the order they are drawn. *)
Definition palette : list String.string :=
  ["navy"; "lightblue"; "orange"; "brown"]%string.

(** Days from the epoch to 1 January of year [y] in the Gregorian calendar,
    and the leap-year rule. *)
Definition year_start (y : Z) : Z :=
  (365 * (y - 1970) + (y - 1) / 4 - (y - 1) / 100 + (y - 1) / 400 - 477)%Z.

Definition is_leap (y : Z) : bool :=
  ((y mod 4 =? 0)%Z && negb (y mod 100 =? 0)%Z) || (y mod 400 =? 0)%Z.

(** The first derived row of the sample frame. *)
Definition sample_row0 : derived_row :=
  nth 0 (out_df (create_visualization sample_frame None None))
      (stat_row 0 0 0).

(** The scatter series drawn for one colour: none when no row has it. *)
Definition colour_series (df : list derived_row) (color_name : String.string)
  : list scatter_series :=
  let masked := filter (fun r => String.eqb (color r) color_name) df in
  match masked with
  | [] => []
  | _ :: _ =>
      [mkScatter color_name
         (String.append "GHI: " (get_ghi_range color_name))
         (map (fun r : derived_row => (Date r, PR r)) masked)]
  end.

(** Forty consecutive days with PR = 50 and GHI = 5. *)
Definition constant_frame : frame :=
  map (fun i => mkRow (timedelta (Z.of_nat i)) (Fin 5) (Fin 50)) (seq 0 40).

(** Lines 130-136 as a stage of their own, on a frame that has the [Date],
    [PR] and [budget_line] columns: line 131 writes the [year] column from
    [Date] (whatever it held), and the loop of lines 132-136 counts from
    it. *)
Definition assign_year (r : derived_row) : derived_row :=
  mkDerived (base r) (PR_30MA r) (days_from_start r) (years_from_start r)
            (budget_line r) (color r) (dt_year (Date r)).

Definition yearly_statistics (df : list derived_row) : list (Z * nat) :=
  yearly_stats (map assign_year df).

(** The rows dated in calendar year [y] that lie strictly above the
    budget. *)
Definition exceeds_in_year (y : Z) (r : derived_row) : bool :=
  (dt_year (Date r) =? y)%Z && float_gt (PR r) (budget_line r).

(** A frame row with its date and the two cells the yearly loop compares;
    the [year] column is still to be written. *)
Definition dated_stat_row (date : Timestamp) (pr budget_value : R)
  : derived_row :=
  mkDerived (mkRow date NaN (Fin pr)) NaN None NaN (Fin budget_value)
            ""%string 0%Z.

(** PR 80 against budget 75 on 2020-01-01, PR 70 against 75 on 2020-05-18,
    PR 90 against 60 on 2021-01-01. *)
Definition dated_example : list derived_row :=
  [dated_stat_row (timedelta 18262) 80 75;
   dated_stat_row (timedelta 18400) 70 75;
   dated_stat_row (timedelta 18628) 90 60].

(** * Properties *)

(** ** Properties of the merger *)

Lemma merge_length (pr ghi : table) :
  length (merge pr ghi) = sum_nat (map (fun l => count_date (fst l) ghi) pr).
Proof.
  unfold merge.
  induction pr as [|l pr IH]; simpl; [reflexivity|].
  rewrite length_app, length_map, IH. reflexivity.
Qed.

Lemma count_date_cons (d : Timestamp) (x : Timestamp * float) (t : table) :
  count_date d (x :: t) = (if same_date d x then 1 else 0) + count_date d t.
Proof.
  unfold count_date; simpl. destruct (same_date d x); reflexivity.
Qed.

Lemma same_date_swap (a b : Timestamp * float) :
  same_date (fst a) b = same_date (fst b) a.
Proof. unfold same_date. apply Z.eqb_sym. Qed.

(** Counting the matching pairs row by row of the left table or row by row
    of the right table gives the same number. *)
Lemma match_count_swap (pr ghi : table) :
  sum_nat (map (fun l => count_date (fst l) ghi) pr) =
  sum_nat (map (fun r => count_date (fst r) pr) ghi).
Proof.
  induction pr as [|l pr IH]; simpl.
  - induction ghi as [|r ghi IHg]; simpl; [reflexivity|exact IHg].
  - rewrite IH. clear IH.
    induction ghi as [|r ghi IHg]; simpl; [reflexivity|].
    rewrite !count_date_cons, <- IHg, (same_date_swap l r).
    destruct (same_date (fst r) l); lia.
Qed.

Lemma count_date_absent (d : Timestamp) (t : table) :
  ~ In d (dates t) -> count_date d t = 0.
Proof.
  induction t as [|x t IH]; simpl; intros Hn; [reflexivity|].
  rewrite count_date_cons, IH by tauto.
  unfold same_date. destruct (Z.eqb_spec (fst x) d); [tauto|reflexivity].
Qed.

Lemma count_date_nodup (d : Timestamp) (t : table) :
  NoDup (dates t) -> count_date d t <= 1.
Proof.
  induction t as [|x t IH]; simpl; intros Hnd; [unfold count_date; simpl; lia|].
  inversion Hnd as [|? ? Hx Ht]; subst.
  rewrite count_date_cons. unfold same_date at 1.
  destruct (Z.eqb_spec (fst x) d) as [E|_].
  - rewrite count_date_absent by (rewrite <- E; assumption). lia.
  - simpl. auto.
Qed.

Lemma sum_nat_bounded (A : Type) (f : A -> nat) (l : list A) :
  (forall x, f x <= 1) -> sum_nat (map f l) <= length l.
Proof.
  intros Hf. induction l as [|x l IH]; simpl; [lia|].
  specialize (Hf x). lia.
Qed.

Lemma merge_length_le_left (pr ghi : table) :
  NoDup (dates ghi) -> length (merge pr ghi) <= length pr.
Proof.
  intros Hnd. rewrite merge_length.
  apply sum_nat_bounded. intros l. now apply count_date_nodup.
Qed.

Lemma merge_length_le_right (pr ghi : table) :
  NoDup (dates pr) -> length (merge pr ghi) <= length ghi.
Proof.
  intros Hnd. rewrite merge_length, match_count_swap.
  apply sum_nat_bounded. intros r. now apply count_date_nodup.
Qed.

Lemma merge_in (pr ghi : table) (m : row) :
  In m (merge pr ghi) <->
  exists p g, In (Date m, p) pr /\ In (Date m, g) ghi /\ m = mkRow (Date m) g p.
Proof.
  unfold merge. rewrite in_flat_map. split.
  - intros [[d p] [Hl Hm]]. apply in_map_iff in Hm.
    destruct Hm as [[d' g] [<- Hr]]. apply filter_In in Hr.
    destruct Hr as [Hr Hd]. unfold same_date in Hd; simpl in *.
    apply Z.eqb_eq in Hd; subst d'. exists p, g. auto.
  - intros (p & g & Hp & Hg & Hm). exists (Date m, p). split; [assumption|].
    apply in_map_iff. exists (Date m, g). simpl. split; [now symmetry|].
    apply filter_In. split; [assumption|]. unfold same_date; simpl.
    apply Z.eqb_refl.
Qed.

Lemma merge_date_in_both (pr ghi : table) (m : row) :
  In m (merge pr ghi) -> In (Date m) (dates pr) /\ In (Date m) (dates ghi).
Proof.
  intros Hm. apply merge_in in Hm. destruct Hm as (p & g & Hp & Hg & _).
  unfold dates. split.
  - change (Date m) with (fst (Date m, p)). now apply in_map.
  - change (Date m) with (fst (Date m, g)). now apply in_map.
Qed.

(** C1, counterexample: a date that occurs twice in each input is expanded to
    four merged rows, more than either input holds. *)
Lemma merge_bound_fails_on_duplicate_dates : ~ merge_bound_claim.
Proof.
  intros H.
  destruct (H [(0%Z, Fin 1); (0%Z, Fin 2)] [(0%Z, Fin 3); (0%Z, Fin 4)])
    as [Hlen _].
  - discriminate.
  - discriminate.
  - exists 0%Z. simpl. auto.
  - simpl in Hlen. lia.
Qed.

(** C1, amended: the inner merge of non-empty inputs sharing a date has at
    most min(|PR|, |GHI|) rows when no date occurs twice within either
    input; and, with or without duplicate dates, every merged row's date
    occurs in both inputs. *)
Theorem merge_bound_unique_dates (pr ghi : table) :
  pr <> [] -> ghi <> [] ->
  (exists d, In d (dates pr) /\ In d (dates ghi)) ->
  (NoDup (dates pr) -> NoDup (dates ghi) ->
   length (merge pr ghi) <= Nat.min (length pr) (length ghi)) /\
  (forall m, In m (merge pr ghi) ->
             In (Date m) (dates pr) /\ In (Date m) (dates ghi)).
Proof.
  intros _ _ _. split.
  - intros Hpr Hghi. apply Nat.min_glb.
    + now apply merge_length_le_left.
    + now apply merge_length_le_right.
  - intros m. apply merge_date_in_both.
Qed.

Lemma merge_bound_unique_dates_witness :
  sample_pr <> [] /\ sample_ghi <> [] /\
  (exists d, In d (dates sample_pr) /\ In d (dates sample_ghi)) /\
  NoDup (dates sample_pr) /\ NoDup (dates sample_ghi) /\
  length (merge sample_pr sample_ghi)
    <= Nat.min (length sample_pr) (length sample_ghi) /\
  (forall m, In m (merge sample_pr sample_ghi) ->
             In (Date m) (dates sample_pr) /\ In (Date m) (dates sample_ghi)).
Proof.
assert (H1 : sample_pr <> []) by discriminate.
assert (H2 : sample_ghi <> []) by discriminate.
assert (H3 : exists d, In d (dates sample_pr) /\ In d (dates sample_ghi)).
{ exists (timedelta 1). split; simpl; auto. }
assert (H4 : NoDup (dates sample_pr)).
{ repeat constructor; simpl; intuition discriminate. }
assert (H5 : NoDup (dates sample_ghi)).
{ repeat constructor; simpl; intuition discriminate. }
split; [exact H1|]. split; [exact H2|]. split; [exact H3|].
split; [exact H4|]. split; [exact H5|].
split.
- exact (proj1 (@merge_bound_unique_dates sample_pr sample_ghi H1 H2 H3) H4 H5).
- exact (proj2 (@merge_bound_unique_dates sample_pr sample_ghi H1 H2 H3)).
Defined.

(** ** GHI bands *)

Lemma float_lt_Fin (x y : R) : float_lt (Fin x) (Fin y) = true <-> (x < y)%R.
Proof.
simpl. destruct (Rlt_dec x y); split; auto; discriminate.
Qed.

Lemma float_lt_Fin_false (x y : R) :
  float_lt (Fin x) (Fin y) = false <-> (y <= x)%R.
Proof.
simpl. destruct (Rlt_dec x y); split; auto; try discriminate; lra.
Qed.

Lemma get_color_cases (x : R) :
  (x < 2 /\ get_color (Fin x) = "navy"%string)%R \/
  (2 <= x < 4 /\ get_color (Fin x) = "lightblue"%string)%R \/
  (4 <= x < 6 /\ get_color (Fin x) = "orange"%string)%R \/
  (6 <= x /\ get_color (Fin x) = "brown"%string)%R.
Proof.
unfold get_color.
destruct (float_lt (Fin x) (Fin 2)) eqn:E2.
{ apply float_lt_Fin in E2. auto. }
apply float_lt_Fin_false in E2.
destruct (float_lt (Fin x) (Fin 4)) eqn:E4.
{ apply float_lt_Fin in E4. right; left. auto. }
apply float_lt_Fin_false in E4.
destruct (float_lt (Fin x) (Fin 6)) eqn:E6.
{ apply float_lt_Fin in E6. right; right; left. auto. }
apply float_lt_Fin_false in E6. right; right; right. auto.
Qed.

(** C3: the band of a real GHI value is one of the four bands, each band is
    exactly the set of values of its interval ([<2], [[2,4)], [[4,6)], [>=6]),
    so the bands do not overlap, and the boundary values fall as the
    less-than tests decide.  Holds for every real, non-negative or not. *)
Theorem ghi_band_partition :
  (forall x : R,
     In (ghi_band (Fin x)) ["<2"; "2-4"; "4-6"; ">6"]%string /\
     (ghi_band (Fin x) = "<2"%string <-> (x < 2)%R) /\
     (ghi_band (Fin x) = "2-4"%string <-> (2 <= x < 4)%R) /\
     (ghi_band (Fin x) = "4-6"%string <-> (4 <= x < 6)%R) /\
     (ghi_band (Fin x) = ">6"%string <-> (6 <= x)%R)) /\
  ghi_band (Fin 1.999) = "<2"%string /\
  ghi_band (Fin 2.0) = "2-4"%string /\
  ghi_band (Fin 4.0) = "4-6"%string /\
  ghi_band (Fin 6.0) = ">6"%string.
Proof.
assert (Hall : forall x : R,
     In (ghi_band (Fin x)) ["<2"; "2-4"; "4-6"; ">6"]%string /\
     (ghi_band (Fin x) = "<2"%string <-> (x < 2)%R) /\
     (ghi_band (Fin x) = "2-4"%string <-> (2 <= x < 4)%R) /\
     (ghi_band (Fin x) = "4-6"%string <-> (4 <= x < 6)%R) /\
     (ghi_band (Fin x) = ">6"%string <-> (6 <= x)%R)).
{ intros x. unfold ghi_band.
  destruct (get_color_cases x) as [[H ->]|[[H ->]|[[H ->]|[H ->]]]];
    (split; [simpl; tauto|]);
    repeat split; intros; try assumption; try reflexivity;
    try discriminate; try lra. }
split; [exact Hall|].
repeat split.
- apply (Hall 1.999%R). lra.
- apply (Hall 2.0%R). lra.
- apply (Hall 4.0%R). lra.
- apply (Hall 6.0%R). lra.
Qed.

(** ** The budget line *)

Lemma fold_min_spec (s : list Z) (d : Z) :
  In (fold_left Z.min s d) (d :: s) /\
  (forall x, In x (d :: s) -> (fold_left Z.min s d <= x)%Z).
Proof.
revert d. induction s as [|a s IH]; intros d; simpl.
- split; [auto|]. intros x [<-|[]]. lia.
- destruct (IH (Z.min d a)) as [Hin Hle]. split.
  + destruct Hin as [Hin|Hin]; [|auto].
    rewrite <- Hin. destruct (Z.min_spec d a) as [[_ ->]|[_ ->]]; auto.
  + intros x Hx. assert (Hm : (fold_left Z.min s (Z.min d a) <= Z.min d a)%Z).
    { apply Hle. now left. }
    destruct Hx as [<-|[<-|Hx]]; [lia|lia|].
    apply Hle. now right.
Qed.

Lemma series_min_spec (s : list Timestamp) (d0 : Timestamp) :
  series_min s = Some d0 ->
  In d0 s /\ (forall x, In x s -> (d0 <= x)%Z).
Proof.
destruct s as [|d s]; simpl; [discriminate|].
intros [= <-]. apply fold_min_spec.
Qed.

Lemma series_min_nonempty (s : list Timestamp) :
  s <> [] -> exists d0, series_min s = Some d0.
Proof.
destruct s as [|d s]; [congruence|]. intros _. simpl. eauto.
Qed.

Lemma derive_in (df : frame) (r : derived_row) :
  In r (derive df) ->
  In (base r) df /\
  days_from_start r = days_since (series_min (map Date df)) (Date r) /\
  years_from_start r = years_of_days (days_from_start r) /\
  budget_line r = budget_of_years (years_from_start r) /\
  color r = get_color (GHI r) /\
  year r = dt_year (Date r).
Proof.
unfold derive. intros Hr. apply in_map_iff in Hr.
destruct Hr as [[x ma] [<- Hin]]. apply in_combine_l in Hin.
simpl. repeat split; try reflexivity. exact Hin.
Qed.

Lemma map_fst_combine (A B : Type) (l : list A) (l' : list B) :
  length l' = length l -> map fst (combine l l') = l.
Proof.
revert l'. induction l as [|x l IH]; intros [|y l']; simpl;
  try discriminate; auto.
intros [= Hlen]. now rewrite IH.
Qed.

Lemma rolling_mean_length (window : nat) (s : list float) :
  length (rolling_mean window s) = length s.
Proof. unfold rolling_mean. now rewrite length_map, length_seq. Qed.

Lemma derive_base (df : frame) : map base (derive df) = df.
Proof.
unfold derive. rewrite map_map.
transitivity (map fst (combine df (rolling_mean 30 (map PR df)))).
- apply map_ext. now intros [r ma].
- apply map_fst_combine. now rewrite rolling_mean_length, length_map.
Qed.

Lemma degradation_base_bounds : (0 < 1 - annual_degradation < 1)%R.
Proof. unfold annual_degradation. lra. Qed.

Lemma Rpower_decreasing_exponent (b y1 y2 : R) :
  (0 < b < 1)%R -> (y1 < y2)%R -> (Rpower b y2 < Rpower b y1)%R.
Proof.
intros [Hb0 Hb1] Hy. unfold Rpower. apply exp_increasing.
assert (Hln : (ln b < 0)%R).
{ rewrite <- ln_1. now apply ln_increasing. }
nra.
Qed.

Lemma budget_decreasing (y1 y2 : R) :
  (y1 < y2)%R -> (budget y1 > budget y2)%R.
Proof.
intros Hy. unfold budget.
pose proof (Rpower_decreasing_exponent degradation_base_bounds Hy) as Hp.
unfold start_budget. nra.
Qed.


Lemma derive_length (df : frame) : length (derive df) = length df.
Proof. rewrite <- (derive_base df) at 2. now rewrite length_map. Qed.


(** ** The centred rolling mean *)

Lemma finite_values_length (s : list float) :
  length (finite_values s) <= length s.
Proof.
induction s as [|[|x] s IH]; simpl; lia.
Qed.

Lemma slice_length (A : Type) (start stop : nat) (s : list A) :
  length (slice start stop s) = Nat.min (stop - start) (length s - start).
Proof.
unfold slice. now rewrite length_firstn, length_skipn.
Qed.

(** The window of row [i] misses observations, whatever the cells hold, when
    [i] is among the first [window - offset - 1] rows or the last [offset]
    rows; for a window of 30 that is 15 rows at the start and 14 at the
    end. *)
Lemma rolling_mean_edge (s : list float) (i : nat) :
  i < 15 \/ length s < i + 15 -> rolling_mean_at 30 s i = NaN.
Proof.
intros Hi. unfold rolling_mean_at.
change ((30 - 1) / 2) with 14.
match goal with |- context [finite_values ?w] => set (obs := finite_values w) end.
assert (Hobs : length obs < 30).
{ subst obs. eapply Nat.le_lt_trans; [apply finite_values_length|].
  rewrite slice_length. lia. }
destruct (Nat.leb_spec 30 (length obs)); [lia|reflexivity].
Qed.

Lemma sum_R_repeat (c : R) (n : nat) :
  sum_R (repeat c n) = (IZR (Z.of_nat n) * c)%R.
Proof.
induction n as [|n IH]; [simpl; lra|].
rewrite Nat2Z.inj_succ, succ_IZR. simpl. rewrite IH. lra.
Qed.

Lemma finite_values_repeat (c : R) (n : nat) :
  finite_values (repeat (Fin c) n) = repeat c n.
Proof.
induction n as [|n IH]; simpl; [reflexivity|now rewrite IH].
Qed.

Lemma skipn_repeat_eq (A : Type) (x : A) (k n : nat) :
  skipn k (repeat x n) = repeat x (n - k).
Proof.
revert n. induction k as [|k IH]; intros [|n]; simpl; auto.
Qed.

Lemma firstn_repeat_eq (A : Type) (x : A) (k n : nat) :
  firstn k (repeat x n) = repeat x (Nat.min k n).
Proof.
revert n. induction k as [|k IH]; intros [|n]; simpl; auto.
now rewrite IH.
Qed.

Lemma slice_repeat (A : Type) (x : A) (start stop n : nat) :
  slice start stop (repeat x n) = repeat x (Nat.min (stop - start) (n - start)).
Proof.
unfold slice. rewrite skipn_repeat_eq, firstn_repeat_eq. reflexivity.
Qed.

(** On a constant series every full window has mean equal to the constant. *)
Lemma rolling_mean_constant (c : R) (n i : nat) :
  15 <= i -> i + 15 <= n ->
  rolling_mean_at 30 (repeat (Fin c) n) i = Fin c.
Proof.
intros Hlo Hhi. unfold rolling_mean_at.
change ((30 - 1) / 2) with 14. rewrite repeat_length, slice_repeat.
replace (Nat.min _ _) with 30 by lia.
rewrite finite_values_repeat.
unfold count_R. rewrite repeat_length, sum_R_repeat.
change (30 <=? 30) with true. cbv iota.
f_equal. change (Z.of_nat 30) with 30%Z. lra.
Qed.

Ltac rolling_cells :=
  repeat match goal with
  | |- _ :: _ = _ :: _ => f_equal
  | |- rolling_mean_at 30 (repeat _ _) _ = NaN =>
      apply rolling_mean_edge; rewrite repeat_length; lia
  | |- rolling_mean_at 30 (repeat _ _) _ = Fin _ =>
      apply rolling_mean_constant; lia
  end.

Lemma rolling_mean_constant_series :
  rolling_mean 30 constant_series =
  repeat NaN 15 ++ repeat (Fin 50) 11 ++ repeat NaN 14.
Proof.
unfold rolling_mean, constant_series. rewrite repeat_length.
set (s := repeat (Fin 50) 40).
cbn [seq map repeat app]. subst s. rolling_cells.
Qed.

(** C2, counterexample: on 40 rows the window of row 14 reaches one row
    before the series, so 15 cells, not 14, are null at the start. *)
Lemma rolling_edges_claim_fails : ~ rolling_edges_claim.
Proof.
intros (_ & Hstart & _).
rewrite rolling_mean_constant_series in Hstart. discriminate Hstart.
Qed.

(** C2, amended: for 40 rows with constant PR = 50 the centred 30-row
    rolling mean is 50 at every position where it is defined, and it is null
    at exactly 15 rows at the start of the series and exactly 14 rows at the
    end (11 cells are defined). *)
Theorem rolling_mean_constant_edges :
  (forall i v, nth_error (rolling_mean 30 constant_series) i = Some (Fin v) ->
               v = 50%R) /\
  leading_nulls (rolling_mean 30 constant_series) = 15 /\
  trailing_nulls (rolling_mean 30 constant_series) = 14 /\
  rolling_mean 30 constant_series =
    repeat NaN 15 ++ repeat (Fin 50) 11 ++ repeat NaN 14.
Proof.
rewrite rolling_mean_constant_series. repeat split.
intros i v Hnth. apply nth_error_In in Hnth.
cbn [repeat app] in Hnth. simpl in Hnth.
repeat (destruct Hnth as [Hnth|Hnth];
        [try discriminate Hnth; now injection Hnth|]).
contradiction.
Qed.

(** ** Yearly budget exceedance *)

Lemma unique_in (s : list Z) (y : Z) : In y (unique s) <-> In y s.
Proof.
induction s as [|x s IH]; simpl; [tauto|].
rewrite filter_In, IH. destruct (Z.eqb_spec y x) as [->|Hne]; simpl.
- split; auto.
- split; [intros [?|[? _]]; auto|]. intros [?|?]; [auto|].
  right. split; [assumption|reflexivity].
Qed.

Lemma unique_nodup (s : list Z) : NoDup (unique s).
Proof.
induction s as [|x s IH]; simpl; constructor.
- rewrite filter_In. intros [_ H]. now rewrite Z.eqb_refl in H.
- now apply NoDup_filter.
Qed.

Lemma dict_get_map (f : Z -> nat) (keys : list Z) (y : Z) :
  (In y keys -> dict_get y (map (fun k => (k, f k)) keys) = Some (f y)) /\
  (~ In y keys -> dict_get y (map (fun k => (k, f k)) keys) = None).
Proof.
induction keys as [|k keys [IH1 IH2]]; simpl; [tauto|].
destruct (Z.eqb_spec k y) as [->|Hne]; split; intros H; auto; tauto.
Qed.

Lemma filter_filter_length (A : Type) (f g : A -> bool) (l : list A) :
  length (filter g (filter f l)) = length (filter (fun x => f x && g x) l).
Proof.
induction l as [|x l IH]; simpl; [reflexivity|].
destruct (f x); simpl; [|assumption]. destruct (g x); simpl; now rewrite IH.
Qed.

Lemma float_gt_strict (a b : float) :
  float_gt a b = true <->
  exists x y : R, a = Fin x /\ b = Fin y /\ (x > y)%R.
Proof.
unfold float_gt. destruct a as [|x], b as [|y]; simpl;
  try (split; [discriminate|intros (? & ? & ? & ? & _); discriminate]).
destruct (Rlt_dec y x) as [H|H]; split.
- intros _. exists x, y. auto.
- reflexivity.
- discriminate.
- intros (x' & y' & [= <-] & [= <-] & Hgt). contradiction.
Qed.

Lemma yearly_stats_example :
  yearly_stats exceedance_example = [(2020%Z, 1); (2021%Z, 1)].
Proof.
unfold yearly_stats, exceedance_example, above_budget.
cbn [map year stat_row unique filter Z.eqb Pos.eqb negb length PR base
     budget_line float_gt float_lt].
repeat match goal with
       | |- context [Rlt_dec ?a ?b] => destruct (Rlt_dec a b); try lra
       end.
reflexivity.
Qed.

Lemma yearly_stats_by_column (df : list derived_row) (y : Z) :
  (In y (map year df) ->
   dict_get y (yearly_stats df) = Some (length (filter (exceeds_in y) df))) /\
  (~ In y (map year df) -> dict_get y (yearly_stats df) = None).
Proof.
unfold yearly_stats, above_budget.
pose proof (dict_get_map
  (fun k => length (filter
     (fun r : derived_row => float_gt (PR r) (budget_line r))
     (filter (fun r => (year r =? k)%Z) df)))
  (unique (map year df)) y) as [H1 H2].
rewrite unique_in in H1, H2. split; intros Hy.
- rewrite (H1 Hy). f_equal. apply filter_filter_length.
- exact (H2 Hy).
Qed.

Lemma yearly_stats_keys_nodup (df : list derived_row) :
  NoDup (map fst (yearly_stats df)).
Proof.
unfold yearly_stats. rewrite map_map. simpl. rewrite map_id.
apply unique_nodup.
Qed.

(** ** Trailing averages *)

Lemma fold_max_spec (s : list Z) (d : Z) :
  In (fold_left Z.max s d) (d :: s) /\
  (forall x, In x (d :: s) -> (x <= fold_left Z.max s d)%Z).
Proof.
revert d. induction s as [|a s IH]; intros d; simpl.
- split; [auto|]. intros x [<-|[]]. lia.
- destruct (IH (Z.max d a)) as [Hin Hle]. split.
  + destruct Hin as [Hin|Hin]; [|auto].
    rewrite <- Hin. destruct (Z.max_spec d a) as [[_ ->]|[_ ->]]; auto.
  + intros x Hx. assert (Hm : (Z.max d a <= fold_left Z.max s (Z.max d a))%Z).
    { apply Hle. now left. }
    destruct Hx as [<-|[<-|Hx]]; [lia|lia|].
    apply Hle. now right.
Qed.

Lemma series_max_spec (s : list Timestamp) (l : Timestamp) :
  series_max s = Some l ->
  In l s /\ (forall x, In x s -> (x <= l)%Z).
Proof.
destruct s as [|d s]; simpl; [discriminate|].
intros [= <-]. apply fold_max_spec.
Qed.

Lemma series_max_empty (s : list Timestamp) : series_max s = None <-> s = [].
Proof.
destruct s; simpl; split; congruence.
Qed.

Lemma timedelta_pos (n : Z) : (0 < n)%Z -> (0 < timedelta n)%Z.
Proof. unfold timedelta, day_ns. lia. Qed.

Lemma last_days_in (n : Z) (df : list derived_row) (l : Timestamp)
  (r : derived_row) :
  series_max (map (fun x : derived_row => Date x) df) = Some l ->
  (In r (last_days n df) <-> In r df /\ (l - timedelta n < Date r)%Z).
Proof.
intros Hl. unfold last_days. rewrite Hl. simpl.
rewrite filter_In, Z.ltb_lt. reflexivity.
Qed.

Lemma last_days_empty (n : Z) (df : list derived_row) :
  (0 < n)%Z -> (last_days n df = [] <-> df = []).
Proof.
intros Hn. split; [|intros ->; reflexivity].
intros Hnone. destruct df as [|r0 df]; [reflexivity|exfalso].
destruct (series_max (map (fun x : derived_row => Date x) (r0 :: df)))
  as [l|] eqn:Hl; [|apply series_max_empty in Hl; discriminate].
destruct (series_max_spec _ Hl) as [Hin _].
apply in_map_iff in Hin. destruct Hin as [r [Hr Hin]].
assert (Hr' : In r (last_days n (r0 :: df))).
{ apply (last_days_in n _ r Hl). split; [assumption|].
  pose proof (timedelta_pos Hn). lia. }
rewrite Hnone in Hr'. contradiction.
Qed.

Lemma series_mean_finite (xs : list R) :
  xs <> [] -> series_mean (map Fin xs) = Fin (sum_R xs / count_R xs).
Proof.
intros Hxs. unfold series_mean.
assert (Hfv : finite_values (map Fin xs) = xs).
{ clear Hxs. induction xs as [|x xs IH]; simpl; [reflexivity|now rewrite IH]. }
rewrite Hfv. destruct xs; [congruence|reflexivity].
Qed.

Lemma series_mean_no_observation (s : list float) :
  finite_values s = [] -> series_mean s = NaN.
Proof. unfold series_mean. now intros ->. Qed.

Lemma series_max_is_latest (df : list derived_row) (l : Timestamp) :
  series_max (map (fun r : derived_row => Date r) df) = Some l <->
  (exists r : derived_row, In r df /\ Date r = l) /\
  (forall r : derived_row, In r df -> (Date r <= l)%Z).
Proof.
split.
- intros Hl. destruct (series_max_spec _ Hl) as [Hin Hmax]. split.
  + apply in_map_iff in Hin. destruct Hin as (r & Hr & Hin). eauto.
  + intros r Hr. apply Hmax.
    apply (in_map (fun x : derived_row => Date x)). exact Hr.
- intros [(r & Hr & Hd) Hup].
  destruct (series_max (map (fun x : derived_row => Date x) df)) as [l'|]
    eqn:Hl'.
  + destruct (series_max_spec _ Hl') as [Hin Hmax].
    apply in_map_iff in Hin. destruct Hin as (r' & Hr' & Hin').
    assert (H1 : (l <= l')%Z).
    { rewrite <- Hd. apply Hmax.
      apply (in_map (fun x : derived_row => Date x)). exact Hr. }
    assert (H2 : (l' <= l)%Z) by (rewrite <- Hr'; now apply Hup).
    f_equal. lia.
  + apply series_max_empty in Hl'. destruct df; [contradiction|discriminate].
Qed.



(** ** The date filter comes first *)

Lemma filter_filter (A : Type) (f g : A -> bool) (l : list A) :
  filter g (filter f l) = filter (fun x => f x && g x) l.
Proof.
induction l as [|x l IH]; simpl; [reflexivity|].
destruct (f x); simpl; [|assumption]. destruct (g x); now rewrite IH.
Qed.

Lemma filter_dates_within (s e : Timestamp) (df : frame) :
  filter_dates (Some s) (Some e) df = filter (within s e) df.
Proof. unfold filter_dates. apply filter_filter. Qed.

Lemma map_snd_combine (A B : Type) (l : list A) (l' : list B) :
  length l' = length l -> map snd (combine l l') = l'.
Proof.
revert l'. induction l as [|x l IH]; intros [|y l']; simpl;
  try discriminate; auto.
intros [= Hlen]. now rewrite IH.
Qed.

Lemma derive_PR_30MA (df : frame) :
  map PR_30MA (derive df) = rolling_mean 30 (map PR df).
Proof.
unfold derive. rewrite map_map.
transitivity (map snd (combine df (rolling_mean 30 (map PR df)))).
- apply map_ext. now intros [r ma].
- apply map_snd_combine. now rewrite rolling_mean_length, length_map.
Qed.

(** C7: with an inclusive range [[start_date, end_date]] the frame is first
    cut down to the rows inside the range (order kept); the run is then the
    run on those rows alone, so the rolling mean is taken over their PR
    cells, [d0] is their earliest date, and the trailing statistics are
    those of the derived rows of that subset. *)
Theorem filter_before_derivation (df : frame) (s e : Timestamp) :
  let kept := filter (within s e) df in
  let v := create_visualization df (Some s) (Some e) in
  (forall r, In r kept <-> In r df /\ (s <= Date r <= e)%Z) /\
  map base (out_df v) = kept /\
  v = create_visualization kept None None /\
  map PR_30MA (out_df v) = rolling_mean 30 (map PR kept) /\
  (forall r, In r (out_df v) ->
     days_from_start r = days_since (series_min (map Date kept)) (Date r) /\
     budget_line r = budget_of_years (years_of_days (days_from_start r))) /\
  avg_7_day v = avg_day 7 (derive kept) /\
  avg_30_day v = avg_day 30 (derive kept) /\
  avg_60_day v = avg_day 60 (derive kept).
Proof.
intros kept v. subst v. unfold create_visualization.
rewrite filter_dates_within. fold kept. cbn [out_df avg_7_day avg_30_day avg_60_day].
split; [|split; [|split; [|split; [|split]]]].
- intros r. unfold kept, within. rewrite filter_In, andb_true_iff.
  rewrite !Z.leb_le. tauto.
- apply derive_base.
- reflexivity.
- apply derive_PR_30MA.
- intros r Hr. apply derive_in in Hr.
  destruct Hr as (_ & Hdays & Hyears & Hbudget & _).
  split; [assumption|]. now rewrite Hbudget, Hyears.
- repeat split.
Qed.

(** ** The text box *)

Lemma days_to_year_mono (a b : Z) :
  (a <= b)%Z -> (days_to_year a <= days_to_year b)%Z.
Proof.
intros Hab. unfold days_to_year, days_per_400years. cbv zeta.
change (400 * 365 + 100 - 4 + 1)%Z with 146097%Z.
change (100 * 365 + 25 - 1)%Z with 36524%Z.
change (4 * 365 + 1)%Z with 1461%Z.
change (365 * 30 + 7)%Z with 10957%Z.
repeat match goal with
       | |- context [(?x <=? ?y)%Z] => destruct (Z.leb_spec x y)
       end;
  Z.div_mod_to_equations; lia.
Qed.

Lemma dt_year_mono (a b : Timestamp) :
  (a <= b)%Z -> (dt_year a <= dt_year b)%Z.
Proof.
intros Hab. unfold dt_year. apply days_to_year_mono.
apply Z.div_le_mono; [reflexivity|assumption].
Qed.

(** [unique] scans left to right: a value is appended when it is met for the
    first time. *)
Lemma unique_snoc (s : list Z) (y : Z) :
  unique (s ++ [y]) =
  if existsb (Z.eqb y) s then unique s else unique s ++ [y].
Proof.
induction s as [|x s IH]; simpl; [reflexivity|].
rewrite IH. destruct (Z.eqb_spec y x) as [->|Hne]; simpl.
- destruct (existsb (Z.eqb x) s); [reflexivity|].
  rewrite filter_app. simpl. rewrite Z.eqb_refl. simpl.
  now rewrite app_nil_r.
- destruct (existsb (Z.eqb y) s); [reflexivity|].
  rewrite filter_app. simpl.
  destruct (Z.eqb_spec y x); [contradiction|reflexivity].
Qed.

Lemma StronglySorted_filter (A : Type) (R : A -> A -> Prop) (f : A -> bool)
  (l : list A) :
  StronglySorted R l -> StronglySorted R (filter f l).
Proof.
induction 1 as [|x l Hl IH Hx]; simpl; [constructor|].
destruct (f x); [|assumption]. constructor; [assumption|].
rewrite Forall_forall in *. intros y Hy. apply Hx.
apply filter_In in Hy. tauto.
Qed.

Lemma unique_sorted (s : list Z) :
  Sorted Z.le s -> StronglySorted Z.lt (unique s).
Proof.
intros Hs. apply Sorted_StronglySorted in Hs; [|exact Z.le_trans].
induction Hs as [|x s Hs IH Hx]; simpl; constructor.
- now apply StronglySorted_filter.
- rewrite Forall_forall in *. intros y Hy. apply filter_In in Hy.
  destruct Hy as [Hy Hne]. apply (proj1 (unique_in _ _)) in Hy.
  specialize (Hx y Hy).
  destruct (Z.eqb_spec y x); [discriminate|lia].
Qed.

Lemma listed_years_stats_text (a b c : float) (stats : list (Z * nat)) :
  listed_years (stats_text a b c stats) = map fst stats.
Proof.
unfold stats_text. simpl.
induction stats as [|[y k] stats IH]; simpl; [reflexivity|now rewrite IH].
Qed.

Lemma yearly_stats_keys (df : list derived_row) :
  map fst (yearly_stats df) = unique (map year df).
Proof.
unfold yearly_stats. rewrite map_map. simpl. apply map_id.
Qed.

Lemma derive_year (df : frame) :
  map year (derive df) = map (fun r => dt_year (Date r)) df.
Proof.
rewrite <- (derive_base df) at 2. rewrite map_map.
apply map_ext_in. intros r Hr. now apply derive_in in Hr.
Qed.

Lemma text_box_years (df : frame) (start_date end_date : option Timestamp) :
  listed_years (text_box (create_visualization df start_date end_date)) =
  unique (map (fun r => dt_year (Date r)) (filter_dates start_date end_date df)).
Proof.
unfold create_visualization. cbn [text_box].
now rewrite listed_years_stats_text, yearly_stats_keys, derive_year.
Qed.



(** ** The loader *)

Lemma string_leb_trans (a b c : String.string) :
  String.leb a b = true -> String.leb b c = true -> String.leb a c = true.
Proof.
unfold String.leb. revert b c.
induction a as [|x a IH]; intros [|y b] [|z c]; simpl; try congruence.
unfold Ascii.compare.
destruct (N.compare_spec (N_of_ascii x) (N_of_ascii y)) as [Hxy|Hxy|Hxy];
  destruct (N.compare_spec (N_of_ascii y) (N_of_ascii z)) as [Hyz|Hyz|Hyz];
  destruct (N.compare_spec (N_of_ascii x) (N_of_ascii z)) as [Hxz|Hxz|Hxz];
  try congruence; try lia.
apply IH.
Qed.

Lemma insert_sorted_perm (p : String.string) (l : list String.string) :
  Permutation (insert_sorted p l) (p :: l).
Proof.
induction l as [|q l IH]; simpl; [reflexivity|].
destruct (String.leb p q); [reflexivity|].
rewrite IH. apply perm_swap.
Qed.

Lemma sort_perm (l : list String.string) : Permutation (sort l) l.
Proof.
induction l as [|p l IH]; simpl; [reflexivity|].
rewrite insert_sorted_perm. now constructor.
Qed.

Lemma insert_sorted_sorted (p : String.string) (l : list String.string) :
  StronglySorted path_le l -> StronglySorted path_le (insert_sorted p l).
Proof.
induction 1 as [|q l Hl IH Hq]; simpl.
- repeat constructor.
- destruct (String.leb p q) eqn:Hpq.
  + constructor; [now constructor|]. constructor; [exact Hpq|].
    rewrite Forall_forall in *. intros r Hr.
    apply (string_leb_trans _ _ _ Hpq). now apply Hq.
  + constructor; [assumption|].
    rewrite Forall_forall in *. intros r Hr.
    apply (Permutation_in _ (insert_sorted_perm p l)) in Hr.
    destruct Hr as [<-|Hr]; [|now apply Hq].
    destruct (String.leb_total p q) as [H|H]; [congruence|exact H].
Qed.

Lemma sort_sorted (l : list String.string) : StronglySorted path_le (sort l).
Proof.
induction l as [|p l IH]; simpl; [constructor|].
now apply insert_sorted_sorted.
Qed.

(** Two ascending lists with the same elements are the same list. *)
Lemma sorted_perm_eq (l1 l2 : list String.string) :
  StronglySorted path_le l1 -> StronglySorted path_le l2 ->
  Permutation l1 l2 -> l1 = l2.
Proof.
intros H1. revert l2.
induction H1 as [|a l1 Hl1 IH Ha]; intros l2 H2 Hp.
- apply Permutation_nil in Hp. now subst.
- destruct H2 as [|b l2 Hl2 Hb].
  + apply Permutation_sym, Permutation_nil in Hp. discriminate.
  + rewrite Forall_forall in Ha, Hb.
    assert (Hab : a = b).
    { assert (Hin1 : In b (a :: l1)).
      { apply (Permutation_in _ (Permutation_sym Hp)). now left. }
      assert (Hin2 : In a (b :: l2)).
      { apply (Permutation_in _ Hp). now left. }
      destruct Hin1 as [|Hin1]; [assumption|].
      destruct Hin2 as [|Hin2]; [now symmetry|].
      apply String.leb_antisym; [now apply Ha|now apply Hb]. }
    subst b. f_equal. apply IH; [assumption|].
    now apply Permutation_cons_inv in Hp.
Qed.

Lemma sort_listing_order (l1 l2 : list String.string) :
  Permutation l1 l2 -> sort l1 = sort l2.
Proof.
intros Hp. apply sorted_perm_eq; try apply sort_sorted.
now rewrite !sort_perm.
Qed.

(** Two machines that hold the same files and differ at most in the order in
    which [glob] lists them. *)
Section ListingOrder.

Variables os os' : OS.
Hypothesis same_join :
  forall p parts, os_path_join os p parts = os_path_join os' p parts.
Hypothesis same_files : forall file, read_csv os file = read_csv os' file.
Hypothesis same_listing :
  forall pattern, Permutation (glob os pattern) (glob os' pattern).

Lemma read_all_same (files : list String.string) :
  read_all os files = read_all os' files.
Proof.
induction files as [|file files IH]; simpl; [reflexivity|].
now rewrite same_files, IH.
Qed.

Lemma load_same (path : String.string) : load os path = load os' path.
Proof.
unfold load. rewrite <- same_join.
rewrite (sort_listing_order
           (same_listing (os_path_join os path ["*"; "*.csv"]%string))).
now rewrite read_all_same.
Qed.

End ListingOrder.

(** C9: the merged frame is a function of the two tables, and the whole of
    [process_data] is a function of the files alone: two runs over the same
    files give the same rows in the same order, whatever order [glob] lists
    the files in. *)
Theorem merge_deterministic (os os' : OS) (pr ghi : String.string) :
  (forall p parts, os_path_join os p parts = os_path_join os' p parts) ->
  (forall file, read_csv os file = read_csv os' file) ->
  (forall pattern, Permutation (glob os pattern) (glob os' pattern)) ->
  process_data os pr ghi = process_data os' pr ghi /\
  (forall t1 t2 t1' t2' : table,
     t1 = t1' -> t2 = t2' -> merge t1 t2 = merge t1' t2').
Proof.
intros Hjoin Hread Hglob. split.
- unfold process_data.
  now rewrite (@load_same os os' Hjoin Hread Hglob pr),
              (@load_same os os' Hjoin Hread Hglob ghi).
- now intros t1 t2 t1' t2' -> ->.
Qed.

Lemma merge_deterministic_witness :
  (forall p parts,
     os_path_join sample_os p parts = os_path_join sample_os_reversed p parts) /\
  (forall file, read_csv sample_os file = read_csv sample_os_reversed file) /\
  (forall pattern,
     Permutation (glob sample_os pattern) (glob sample_os_reversed pattern)) /\
  process_data sample_os "d/PR"%string "d/GHI"%string =
  process_data sample_os_reversed "d/PR"%string "d/GHI"%string.
Proof.
assert (H1 : forall p parts,
  os_path_join sample_os p parts = os_path_join sample_os_reversed p parts)
  by reflexivity.
assert (H2 : forall file,
  read_csv sample_os file = read_csv sample_os_reversed file) by reflexivity.
assert (H3 : forall pattern,
  Permutation (glob sample_os pattern) (glob sample_os_reversed pattern))
  by (intros; apply Permutation_rev).
split; [exact H1|]. split; [exact H2|]. split; [exact H3|].
exact (proj1 (@merge_deterministic sample_os sample_os_reversed
                "d/PR"%string "d/GHI"%string H1 H2 H3)).
Defined.

Lemma process_data_sample :
  process_data sample_os_reversed "d/PR"%string "d/GHI"%string =
  Ok [mkRow (timedelta 18262) (Fin 5) (Fin 75);
      mkRow (timedelta 18628) (Fin 3) (Fin 74)].
Proof. reflexivity. Qed.

Lemma load_no_files (os : OS) (path : String.string) :
  glob os (csv_pattern os path) = [] ->
  load os path = Raise ValueError_no_objects_to_concatenate.
Proof.
unfold load, csv_pattern. now intros ->.
Qed.

Lemma process_data_no_files (os : OS) (pr ghi : String.string) :
  glob os (csv_pattern os pr) = [] \/ glob os (csv_pattern os ghi) = [] ->
  exists e, process_data os pr ghi = Raise e /\
            (glob os (csv_pattern os pr) = [] ->
             e = ValueError_no_objects_to_concatenate).
Proof.
intros [Hpr|Hghi]; unfold process_data.
- rewrite (load_no_files _ _ Hpr). simpl. eauto.
- rewrite (load_no_files _ ghi Hghi).
  destruct (load os pr) as [t|e] eqn:Hload; simpl.
  + exists ValueError_no_objects_to_concatenate. auto.
  + exists e. split; [reflexivity|]. intros Hpr.
    rewrite (load_no_files _ _ Hpr) in Hload. congruence.
Qed.

(** C10: when the listing of either data tree is empty the loader raises
    (the concatenation of no tables) instead of returning an empty table,
    [process_data] returns no frame, and [main] stops before it writes any
    file. *)
Theorem no_files_no_artifact (os : OS) :
  glob os (csv_pattern os pr_path) = [] \/
  glob os (csv_pattern os ghi_path) = [] ->
  exists e : error,
    process_data os pr_path ghi_path = Raise e /\
    main os = (Raise e, []) /\
    (forall df, process_data os pr_path ghi_path <> Ok df) /\
    (glob os (csv_pattern os pr_path) = [] ->
     load os pr_path = Raise ValueError_no_objects_to_concatenate /\
     e = ValueError_no_objects_to_concatenate) /\
    (glob os (csv_pattern os ghi_path) = [] ->
     load os ghi_path = Raise ValueError_no_objects_to_concatenate).
Proof.
intros H. destruct (process_data_no_files os pr_path ghi_path H) as [e [He Hv]].
exists e. split; [exact He|]. split; [|split; [|split]].
- unfold main. now rewrite He.
- intros df. rewrite He. discriminate.
- intros Hpr. split; [now apply load_no_files|now apply Hv].
- apply load_no_files.
Qed.

Lemma no_files_no_artifact_witness :
  (glob bare_os (csv_pattern bare_os pr_path) = [] \/
   glob bare_os (csv_pattern bare_os ghi_path) = []) /\
  exists e : error,
    process_data bare_os pr_path ghi_path = Raise e /\
    main bare_os = (Raise e, []).
Proof.
assert (H : glob bare_os (csv_pattern bare_os pr_path) = [] \/
            glob bare_os (csv_pattern bare_os ghi_path) = [])
  by (left; reflexivity).
split; [exact H|].
destruct (no_files_no_artifact bare_os H) as [e [He [Hm _]]].
exists e. split; assumption.
Defined.

(** * Further properties *)

(** ** The merger: membership, multiplicity, order *)

Lemma filter_date_map_row (d a : Timestamp) (p : float) (t : table) :
  filter (fun m : row => (Date m =? d)%Z)
         (map (fun r : Timestamp * float => mkRow a (snd r) p) t) =
  if (a =? d)%Z then map (fun r => mkRow a (snd r) p) t else [].
Proof.
induction t as [|r t IH]; simpl.
- now destruct (a =? d)%Z.
- rewrite IH. now destruct (a =? d)%Z.
Qed.

(** X1: the inner join is sound and complete, values included: a row
    [(d, g, p)] is in the merged frame exactly when [(d, p)] is a PR row and
    [(d, g)] is a GHI row. *)
Theorem merge_row_iff (pr ghi : table) (d : Timestamp) (g p : float) :
  In (mkRow d g p) (merge pr ghi) <-> In (d, p) pr /\ In (d, g) ghi.
Proof.
rewrite merge_in. simpl. split.
- intros (p' & g' & Hp & Hg & [= <- <-]). auto.
- intros [Hp Hg]. exists p, g. auto.
Qed.

(** X2: a date is expanded to the product of its occurrences: the number of
    merged rows of date [d] is the number of PR rows of [d] times the number
    of GHI rows of [d]. *)
Theorem merge_rows_per_date (pr ghi : table) (d : Timestamp) :
  length (filter (fun m : row => (Date m =? d)%Z) (merge pr ghi)) =
  count_date d pr * count_date d ghi.
Proof.
unfold merge. induction pr as [|l pr IH]; simpl; [reflexivity|].
rewrite filter_app, length_app, IH, filter_date_map_row, count_date_cons.
unfold same_date at 2.
destruct (Z.eqb_spec (fst l) d) as [E|E].
- rewrite length_map. rewrite E. unfold count_date. lia.
- simpl. lia.
Qed.

(** X3: the merged frame is empty exactly when the two tables share no
    date; in particular when either table is empty. *)
Theorem merge_empty_iff (pr ghi : table) :
  merge pr ghi = [] <->
  (forall d, In d (dates pr) -> ~ In d (dates ghi)).
Proof.
split.
- intros Hnil d Hpr Hghi. unfold dates in Hpr, Hghi.
  apply in_map_iff in Hpr. destruct Hpr as [[d1 p] [Hd1 Hp]].
  apply in_map_iff in Hghi. destruct Hghi as [[d2 g] [Hd2 Hg]].
  simpl in Hd1, Hd2. subst d1 d2.
  assert (Hin : In (mkRow d g p) (merge pr ghi)).
  { apply merge_in. simpl. exists p, g. auto. }
  rewrite Hnil in Hin. contradiction.
- intros Hno. destruct (merge pr ghi) as [|m ms] eqn:Hm; [reflexivity|exfalso].
  assert (Hin : In m (merge pr ghi)) by (rewrite Hm; now left).
  apply merge_date_in_both in Hin. destruct Hin as [Hpr Hghi].
  exact (Hno _ Hpr Hghi).
Qed.

(** X4: the merged frame follows the PR table: projected to [Date] and [PR]
    it is the PR table, in its order, with each row repeated once per GHI
    row of the same date (and dropped when there is none). *)
Theorem merge_follows_pr_order (pr ghi : table) :
  map (fun m : row => (Date m, PR m)) (merge pr ghi) =
  flat_map (fun l => repeat l (count_date (fst l) ghi)) pr.
Proof.
unfold merge. induction pr as [|[d p] pr IH]; simpl; [reflexivity|].
rewrite map_app, IH. f_equal.
unfold count_date. rewrite map_map. simpl.
induction (filter (same_date d) ghi) as [|r t IHt]; simpl;
  [reflexivity|now rewrite IHt].
Qed.

(** ** The loader: what is read, in which order, and when it fails *)

Lemma read_all_inv (os : OS) (files : list String.string) (tables : list table) :
  read_all os files = Ok tables <-> Forall2 (reads os) files tables.
Proof.
revert tables. induction files as [|f files IH]; intros tables; simpl.
- split.
  + intros [= <-]. constructor.
  + intros H. inversion H. reflexivity.
- unfold bind. destruct (read_csv os f) as [t|e] eqn:Hf.
  + destruct (read_all os files) as [ts|e] eqn:Hfs.
    * split.
      -- intros [= <-]. constructor; [exact Hf|]. now apply IH.
      -- intros H. inversion H as [|? t' ? ts' Ht Hts]; subst.
         unfold reads in Ht. rewrite Hf in Ht. injection Ht as <-.
         apply IH in Hts. now injection Hts as <-.
    * split; [discriminate|].
      intros H. inversion H as [|? t' ? ts' Ht Hts]; subst.
      apply IH in Hts. discriminate.
  + split; [discriminate|].
    intros H. inversion H as [|? t' ? ts' Ht Hts]; subst.
    unfold reads in Ht. rewrite Hf in Ht. discriminate.
Qed.

Lemma read_all_first_failure (os : OS) (good rest : list String.string)
  (bad : String.string) (e : error) :
  (forall f, In f good -> exists t, read_csv os f = Ok t) ->
  read_csv os bad = Raise e ->
  read_all os (good ++ bad :: rest) = Raise e.
Proof.
intros Hgood Hbad. induction good as [|f good IH]; simpl.
- now rewrite Hbad.
- destruct (Hgood f (or_introl eq_refl)) as [t Ht]. rewrite Ht. simpl.
  rewrite IH; [reflexivity|]. intros f' Hf'. apply Hgood. now right.
Qed.

Lemma sort_nil_iff (l : list String.string) : sort l = [] <-> l = [].
Proof.
split; [|now intros ->]. intros Hs.
pose proof (sort_perm l) as Hp. rewrite Hs in Hp.
now apply Permutation_nil in Hp.
Qed.

Lemma load_ok_tables (os : OS) (path : String.string) (t : table) :
  load os path = Ok t <->
  glob os (csv_pattern os path) <> [] /\
  exists tables,
    Forall2 (reads os) (sort (glob os (csv_pattern os path))) tables /\
    t = concat tables.
Proof.
unfold load. fold (csv_pattern os path).
set (listing := glob os (csv_pattern os path)). unfold bind. split.
- destruct (read_all os (sort listing)) as [tables|e] eqn:Hread;
    [|discriminate].
  destruct tables as [|t0 tables]; simpl; [discriminate|].
  intros [= <-]. split.
  + intros Hl. rewrite Hl in Hread. simpl in Hread. discriminate.
  + exists (t0 :: tables). split; [now apply read_all_inv|reflexivity].
- intros (Hne & tables & Hall & ->).
  apply read_all_inv in Hall. rewrite Hall.
  destruct tables as [|t0 tables]; [|reflexivity].
  exfalso. apply Hne. apply sort_nil_iff.
  destruct (sort listing) as [|f fs]; [reflexivity|].
  simpl in Hall. unfold bind in Hall.
  destruct (read_csv os f); [|discriminate].
  destruct (read_all os fs); discriminate.
Qed.

(** X5: a tree loads exactly when its listing is not empty and every listed
    file can be read; the loaded table is then the concatenation of the
    files' tables taken in ascending path order, each listed file once,
    whatever order they were listed in. *)
Theorem load_ok_iff (os : OS) (path : String.string) (t : table) :
  let listing := glob os (csv_pattern os path) in
  (load os path = Ok t <->
   listing <> [] /\
   exists tables, Forall2 (reads os) (sort listing) tables /\
                  t = concat tables) /\
  StronglySorted path_le (sort listing) /\
  Permutation (sort listing) listing.
Proof.
intros listing. split; [|split; [apply sort_sorted|apply sort_perm]].
apply load_ok_tables.
Qed.

(** X6: the first file, in ascending path order, that cannot be read aborts
    the load with its own error; the files after it are not reached and no
    partial table is returned. *)
Theorem load_first_unreadable (os : OS) (path : String.string)
  (good rest : list String.string) (bad : String.string) (e : error) :
  sort (glob os (csv_pattern os path)) = good ++ bad :: rest ->
  (forall f, In f good -> exists t, read_csv os f = Ok t) ->
  read_csv os bad = Raise e ->
  load os path = Raise e /\
  (forall ghi_path, process_data os path ghi_path = Raise e).
Proof.
intros Hsort Hgood Hbad.
assert (Hload : load os path = Raise e).
{ unfold load. fold (csv_pattern os path). rewrite Hsort.
  now rewrite (@read_all_first_failure os good rest bad e Hgood Hbad). }
split; [exact Hload|]. intros ghi_path. unfold process_data.
now rewrite Hload.
Qed.

Lemma load_first_unreadable_witness :
  sort (glob broken_os (csv_pattern broken_os "d/PR"%string)) =
    ["d/PR/2020/a.csv"%string] ++ "d/PR/2021/zz.csv"%string :: [] /\
  (forall f, In f ["d/PR/2020/a.csv"%string] ->
             exists t, read_csv broken_os f = Ok t) /\
  read_csv broken_os "d/PR/2021/zz.csv"%string =
    Raise (ReadError "d/PR/2021/zz.csv"%string) /\
  load broken_os "d/PR"%string = Raise (ReadError "d/PR/2021/zz.csv"%string).
Proof.
assert (H1 : sort (glob broken_os (csv_pattern broken_os "d/PR"%string)) =
             ["d/PR/2020/a.csv"%string] ++ "d/PR/2021/zz.csv"%string :: [])
  by reflexivity.
assert (H2 : forall f, In f ["d/PR/2020/a.csv"%string] ->
                       exists t, read_csv broken_os f = Ok t).
{ intros f [<-|[]]. eexists. reflexivity. }
assert (H3 : read_csv broken_os "d/PR/2021/zz.csv"%string =
             Raise (ReadError "d/PR/2021/zz.csv"%string)) by reflexivity.
split; [exact H1|]. split; [exact H2|]. split; [exact H3|].
exact (proj1 (@load_first_unreadable broken_os "d/PR"%string _ _ _ _ H1 H2 H3)).
Defined.

Lemma Forall2_reads_origin (os : OS) (files : list String.string)
  (tables : list table) (tf : table) :
  Forall2 (reads os) files tables -> In tf tables ->
  exists file, In file files /\ reads os file tf.
Proof.
induction 1 as [|f t0 fs ts Hf Hfs IH]; [contradiction|].
intros [<-|Htf].
- exists f. split; [now left|assumption].
- destruct (IH Htf) as (file & Hin & Hr). exists file.
  split; [now right|assumption].
Qed.

Lemma load_row_origin (os : OS) (path : String.string) (t : table)
  (x : Timestamp * float) :
  load os path = Ok t -> In x t ->
  exists file tf,
    In file (glob os (csv_pattern os path)) /\ reads os file tf /\ In x tf.
Proof.
intros Hload Hx.
apply load_ok_tables in Hload. destruct Hload as (_ & tables & Hall & ->).
apply in_concat in Hx. destruct Hx as (tf & Htf & Hx).
destruct (@Forall2_reads_origin _ _ _ _ Hall Htf) as (file & Hin & Hr).
exists file, tf. split; [|split; assumption].
exact (Permutation_in _ (sort_perm _) Hin).
Qed.

(** X7: no merged row is invented: when [process_data] succeeds, the
    [(Date, PR)] pair of every merged row is a row of some listed PR file and
    its [(Date, GHI)] pair is a row of some listed GHI file. *)
Theorem process_data_row_origin (os : OS) (pr ghi : String.string)
  (df : frame) (m : row) :
  process_data os pr ghi = Ok df -> In m df ->
  (exists file tf, In file (glob os (csv_pattern os pr)) /\
                   reads os file tf /\ In (Date m, PR m) tf) /\
  (exists file tf, In file (glob os (csv_pattern os ghi)) /\
                   reads os file tf /\ In (Date m, GHI m) tf).
Proof.
unfold process_data, bind. intros Hok Hm.
destruct (load os pr) as [tpr|] eqn:Hpr; [|discriminate].
destruct (load os ghi) as [tghi|] eqn:Hghi; [|discriminate].
injection Hok as <-. apply merge_in in Hm.
destruct Hm as (p & g & Hp & Hg & Heq).
assert (HPR : PR m = p) by (rewrite Heq; reflexivity).
assert (HGHI : GHI m = g) by (rewrite Heq; reflexivity).
rewrite HPR, HGHI. split.
- exact (@load_row_origin _ _ _ _ Hpr Hp).
- exact (@load_row_origin _ _ _ _ Hghi Hg).
Qed.

Lemma process_data_row_origin_witness :
  process_data sample_os "d/PR"%string "d/GHI"%string = Ok sample_frame /\
  In (mkRow (timedelta 18628) (Fin 3) (Fin 74)) sample_frame /\
  (exists file tf,
     In file (glob sample_os (csv_pattern sample_os "d/PR"%string)) /\
     reads sample_os file tf /\ In (timedelta 18628, Fin 74) tf) /\
  (exists file tf,
     In file (glob sample_os (csv_pattern sample_os "d/GHI"%string)) /\
     reads sample_os file tf /\ In (timedelta 18628, Fin 3) tf).
Proof.
assert (H1 : process_data sample_os "d/PR"%string "d/GHI"%string
             = Ok sample_frame) by reflexivity.
assert (H2 : In (mkRow (timedelta 18628) (Fin 3) (Fin 74)) sample_frame)
  by (right; left; reflexivity).
split; [exact H1|]. split; [exact H2|].
exact (@process_data_row_origin sample_os "d/PR"%string "d/GHI"%string
         sample_frame _ H1 H2).
Defined.

(** ** The date filter *)

Lemma filter_dates_in_bounds (s e : option Timestamp) (df : frame) :
  filter_dates s e df = filter (in_bounds s e) df.
Proof.
unfold filter_dates, in_bounds. destruct s as [a|], e as [b|].
- apply filter_filter.
- apply filter_ext. intros r. now rewrite andb_true_r.
- reflexivity.
- induction df as [|r df IH]; simpl; [reflexivity|now f_equal].
Qed.

(** X9: the optional bounds act as one inclusive test per row: a row is kept
    exactly when it satisfies every bound that is given, kept rows stay in
    their order, filtering again changes nothing, and without bounds the
    frame is unchanged. *)
Theorem filter_dates_spec (s e : option Timestamp) (df : frame) :
  (forall r, In r (filter_dates s e df) <->
     In r df /\
     (forall a, s = Some a -> (a <= Date r)%Z) /\
     (forall b, e = Some b -> (Date r <= b)%Z)) /\
  filter_dates s e df = filter (in_bounds s e) df /\
  filter_dates s e (filter_dates s e df) = filter_dates s e df /\
  length (filter_dates s e df) <= length df /\
  filter_dates None None df = df.
Proof.
split; [|split; [|split; [|split]]].
- intros r. rewrite filter_dates_in_bounds, filter_In. unfold in_bounds.
  rewrite andb_true_iff.
  destruct s as [a|], e as [b|]; rewrite ?Z.leb_le; split.
  + intros (Hin & Ha & Hb). repeat split; auto; now intros ? [= <-].
  + intros (Hin & Ha & Hb). auto.
  + intros (Hin & Ha & _). repeat split; auto; [now intros ? [= <-]|discriminate].
  + intros (Hin & Ha & _). auto.
  + intros (Hin & _ & Hb). repeat split; auto; [discriminate|now intros ? [= <-]].
  + intros (Hin & _ & Hb). auto.
  + intros (Hin & _). repeat split; auto; discriminate.
  + intros (Hin & _). auto.
- apply filter_dates_in_bounds.
- rewrite !filter_dates_in_bounds, filter_filter.
  apply filter_ext. intros r. now destruct (in_bounds s e r).
- rewrite filter_dates_in_bounds. apply filter_length_le.
- reflexivity.
Qed.

Lemma filter_dates_inverted (a b : Timestamp) (df : frame) :
  (b < a)%Z -> filter_dates (Some a) (Some b) df = [].
Proof.
intros Hab. rewrite filter_dates_within.
induction df as [|r df IH]; simpl; [reflexivity|].
unfold within at 1.
destruct (Z.leb_spec a (Date r)), (Z.leb_spec (Date r) b); simpl;
  try exact IH. lia.
Qed.

(** X10: a range whose end precedes its start selects no row, and the run
    then raises nothing: the returned frame and every plotted series are
    empty, the three trailing averages are NaN, no year is counted, and the
    text box holds its six fixed lines. *)
Theorem inverted_range_visualization (df : frame) (a b : Timestamp) :
  (b < a)%Z ->
  create_visualization df (Some a) (Some b) = empty_visualization.
Proof.
intros Hab. unfold create_visualization.
now rewrite (filter_dates_inverted df Hab).
Qed.

Lemma inverted_range_visualization_witness :
  (timedelta 18262 < timedelta 18628)%Z /\
  create_visualization sample_frame
    (Some (timedelta 18628)) (Some (timedelta 18262)) = empty_visualization.
Proof.
assert (H : (timedelta 18262 < timedelta 18628)%Z) by reflexivity.
split; [exact H|].
exact (@inverted_range_visualization sample_frame _ _ H).
Defined.

(** ** Derived columns: ranges and order *)

Lemma derive_nth_base (df : frame) (i : nat) (d : derived_row) :
  base (nth i (derive df) d) = nth i df (base d).
Proof. now rewrite <- (derive_base df) at 2; rewrite map_nth. Qed.

Lemma sample_rows_in :
  In sample_row0 (out_df (create_visualization sample_frame None None)) /\
  In sample_row (out_df (create_visualization sample_frame None None)).
Proof.
unfold sample_row0, sample_row, create_visualization.
cbn [out_df filter_dates].
split; apply nth_In; rewrite derive_length; simpl; lia.
Qed.

Lemma sample_rows_dates :
  Date sample_row0 = timedelta 18262 /\ Date sample_row = timedelta 18628.
Proof.
unfold sample_row0, sample_row, create_visualization.
cbn [out_df filter_dates]. now rewrite !derive_nth_base.
Qed.

Lemma Rpower_le_one (b y : R) :
  (0 < b < 1)%R -> (0 <= y)%R ->
  (0 < Rpower b y <= 1)%R /\ (Rpower b y = 1 <-> y = 0)%R.
Proof.
intros Hb Hy. assert (H0 : Rpower b 0 = 1%R) by (apply Rpower_O; lra).
assert (Hpos : (0 < Rpower b y)%R) by (unfold Rpower; apply exp_pos).
destruct (Req_dec y 0) as [->|Hne].
- rewrite H0. split; [lra|tauto].
- assert (Hlt : (Rpower b y < Rpower b 0)%R)
    by (apply Rpower_decreasing_exponent; [assumption|lra]).
  rewrite H0 in Hlt. split; [lra|]. split; [lra|contradiction].
Qed.

Lemma derive_days (df : frame) (r : derived_row) :
  In r (derive df) ->
  exists d0, series_min (map Date df) = Some d0 /\ (d0 <= Date r)%Z /\
             days_from_start r = Some ((Date r - d0) / day_ns)%Z /\
             years_from_start r = Fin (IZR ((Date r - d0) / day_ns) / 365.25) /\
             budget_line r = Fin (budget (IZR ((Date r - d0) / day_ns) / 365.25)).
Proof.
intros Hr. apply derive_in in Hr.
destruct Hr as (Hin & Hdays & Hyears & Hbudget & _).
destruct (@series_min_nonempty (map Date df)) as [d0 Hd0].
{ destruct df; [contradiction|discriminate]. }
exists d0. split; [assumption|]. split.
- apply (series_min_spec _ Hd0). now apply in_map.
- rewrite Hbudget, Hyears, Hdays, Hd0. simpl. auto.
Qed.

Lemma days_nonneg (d0 d : Timestamp) :
  (d0 <= d)%Z -> (0 <= (d - d0) / day_ns)%Z.
Proof. intros H. apply Z.div_pos; [lia|reflexivity]. Qed.

Lemma years_nonneg (n : Z) :
  (0 <= n)%Z -> (0 <= IZR n / 365.25)%R /\ (IZR n / 365.25 = 0 <-> n = 0%Z)%R.
Proof.
intros Hn. apply IZR_le in Hn. split; [lra|]. split.
- intros H. apply eq_IZR. lra.
- intros ->. lra.
Qed.

(** X11: every row of the returned frame has a whole number of days from
    the earliest date that is at least 0, a year offset that is at least 0,
    and a budget in (0, 73.9]; the budget is 73.9 exactly on the rows less
    than a day after the earliest date, and some row is dated at the
    earliest date itself. *)
Theorem derived_row_ranges
  (df : frame) (s e : option Timestamp) (r : derived_row) :
  In r (out_df (create_visualization df s e)) ->
  (exists (days : Z) (y b : R),
     days_from_start r = Some days /\ (0 <= days)%Z /\
     years_from_start r = Fin y /\ (0 <= y)%R /\
     budget_line r = Fin b /\ (0 < b <= 73.9)%R /\
     (b = 73.9%R <-> days = 0%Z)) /\
  (exists r0, In r0 (out_df (create_visualization df s e)) /\
              days_from_start r0 = Some 0%Z /\
              forall x, In x (filter_dates s e df) -> (Date r0 <= Date x)%Z).
Proof.
unfold create_visualization. cbn [out_df].
set (kept := filter_dates s e df). intros Hr.
destruct (derive_days kept r Hr) as (d0 & Hd0 & Hle & Hdays & Hyears & Hb).
split.
- exists ((Date r - d0) / day_ns)%Z, (IZR ((Date r - d0) / day_ns) / 365.25)%R,
         (budget (IZR ((Date r - d0) / day_ns) / 365.25)).
  pose proof (days_nonneg Hle) as Hn.
  destruct (years_nonneg Hn) as [Hy Hy0].
  destruct (Rpower_le_one degradation_base_bounds Hy) as [Hp Hp1].
  repeat split; try assumption; unfold budget, start_budget in *; try nra.
  + intros Hb73. apply Hy0. apply Hp1. nra.
  + intros H0. apply Hy0 in H0. apply Hp1 in H0. rewrite H0. lra.
- destruct (series_min_spec _ Hd0) as [Hin Hmin].
  apply in_map_iff in Hin. destruct Hin as (x0 & Hx0 & Hin0).
  rewrite <- (derive_base kept) in Hin0. apply in_map_iff in Hin0.
  destruct Hin0 as (r0 & Hr0 & Hin0). exists r0. split; [assumption|].
  destruct (derive_days kept r0 Hin0) as (d0' & Hd0' & _ & Hdays0 & _).
  rewrite Hd0 in Hd0'. injection Hd0' as <-.
  assert (HD : Date r0 = d0) by (rewrite Hr0; exact Hx0).
  split.
  + rewrite Hdays0, HD, Z.sub_diag. reflexivity.
  + intros x Hx. rewrite HD. apply Hmin. now apply in_map.
Qed.

Lemma derived_row_ranges_witness :
  In sample_row (out_df (create_visualization sample_frame None None)) /\
  exists (days : Z) (y b : R),
    days_from_start sample_row = Some days /\ (0 <= days)%Z /\
    years_from_start sample_row = Fin y /\ (0 <= y)%R /\
    budget_line sample_row = Fin b /\ (0 < b <= 73.9)%R /\
    (b = 73.9%R <-> days = 0%Z).
Proof.
pose proof (proj2 sample_rows_in) as H.
split; [exact H|].
exact (proj1 (@derived_row_ranges sample_frame None None sample_row H)).
Defined.

(** X12: along the returned frame the budget falls with the date: a row
    dated no earlier than another has a budget no higher, strictly lower
    when it is dated at least one day later, and equal when both have the
    same date. *)
Theorem budget_line_falls_with_date
  (df : frame) (s e : option Timestamp) (r1 r2 : derived_row) :
  In r1 (out_df (create_visualization df s e)) ->
  In r2 (out_df (create_visualization df s e)) ->
  (Date r1 <= Date r2)%Z ->
  exists b1 b2 : R,
    budget_line r1 = Fin b1 /\ budget_line r2 = Fin b2 /\ (b2 <= b1)%R /\
    ((Date r1 + day_ns <= Date r2)%Z -> (b2 < b1)%R) /\
    (Date r1 = Date r2 -> b1 = b2).
Proof.
unfold create_visualization. cbn [out_df].
set (kept := filter_dates s e df). intros H1 H2 Hle.
destruct (derive_days kept r1 H1) as (d0 & Hd0 & Hle1 & _ & _ & Hb1).
destruct (derive_days kept r2 H2) as (d0' & Hd0' & Hle2 & _ & _ & Hb2).
rewrite Hd0 in Hd0'. injection Hd0' as <-.
exists (budget (IZR ((Date r1 - d0) / day_ns) / 365.25)),
       (budget (IZR ((Date r2 - d0) / day_ns) / 365.25)).
split; [assumption|]. split; [assumption|].
assert (Hdiv : ((Date r1 - d0) / day_ns <= (Date r2 - d0) / day_ns)%Z)
  by (apply Z.div_le_mono; [reflexivity|lia]).
split; [|split].
- apply Z.le_lteq in Hdiv. destruct Hdiv as [Hlt|Heq].
  + apply IZR_lt in Hlt. apply Rlt_le. apply budget_decreasing. lra.
  + rewrite Heq. lra.
- intros Hday. apply budget_decreasing.
  assert (Hlt : ((Date r1 - d0) / day_ns < (Date r2 - d0) / day_ns)%Z).
  { apply Z.lt_le_trans with ((Date r1 - d0 + 1 * day_ns) / day_ns)%Z.
    - rewrite Z.div_add by discriminate. lia.
    - apply Z.div_le_mono; [reflexivity|lia]. }
  apply IZR_lt in Hlt. lra.
- now intros ->.
Qed.

Lemma budget_line_falls_with_date_witness :
  In sample_row0 (out_df (create_visualization sample_frame None None)) /\
  In sample_row (out_df (create_visualization sample_frame None None)) /\
  (Date sample_row0 <= Date sample_row)%Z /\
  exists b1 b2 : R,
    budget_line sample_row0 = Fin b1 /\ budget_line sample_row = Fin b2 /\
    (b2 <= b1)%R.
Proof.
destruct sample_rows_in as [H1 H2].
assert (H3 : (Date sample_row0 <= Date sample_row)%Z).
{ destruct sample_rows_dates as [-> ->]. discriminate. }
split; [exact H1|]. split; [exact H2|]. split; [exact H3|].
destruct (@budget_line_falls_with_date sample_frame None None
            sample_row0 sample_row H1 H2 H3) as (b1 & b2 & Hb1 & Hb2 & Hle & _).
exists b1, b2. auto.
Defined.

(** ** The moving average in the frame and on the chart *)

Lemma finite_values_all (w : list float) :
  ~ In NaN w -> length (finite_values w) = length w.
Proof.
induction w as [|[|x] w IH]; simpl; intros H; [reflexivity|tauto|].
rewrite IH; [reflexivity|tauto].
Qed.

Lemma finite_values_missing (w : list float) :
  In NaN w -> length (finite_values w) < length w.
Proof.
induction w as [|[|x] w IH]; simpl; intros H; [contradiction| |].
- pose proof (finite_values_length w). lia.
- destruct H as [H|H]; [discriminate|]. apply IH in H. lia.
Qed.

Lemma rolling_window_bounds (s : list float) (i : nat) :
  15 <= i -> i + 15 <= length s ->
  rolling_mean_at 30 s i =
  (let obs := finite_values (slice (i - 15) (i + 15) s) in
   if 30 <=? length obs then Fin (sum_R obs / count_R obs) else NaN).
Proof.
intros Hlo Hhi. unfold rolling_mean_at. change ((30 - 1) / 2) with 14.
replace (Nat.min (i + 1 + 14) (length s)) with (i + 15) by lia.
replace (Nat.min (i + 1 + 14 - 30) (length s)) with (i - 15) by lia.
reflexivity.
Qed.

(** X13: away from the edges the rolling cell of row [i] is computed from
    the 30 PR cells of rows [i - 15] to [i + 14]: it is their mean when all
    of them hold a number, and NaN as soon as one of them is missing. *)
Theorem rolling_window_mean (s : list float) (i : nat) :
  15 <= i -> i + 15 <= length s ->
  length (slice (i - 15) (i + 15) s) = 30 /\
  (In NaN (slice (i - 15) (i + 15) s) -> rolling_mean_at 30 s i = NaN) /\
  (~ In NaN (slice (i - 15) (i + 15) s) ->
   rolling_mean_at 30 s i =
   Fin (sum_R (finite_values (slice (i - 15) (i + 15) s)) / 30)).
Proof.
intros Hlo Hhi.
assert (Hlen : length (slice (i - 15) (i + 15) s) = 30)
  by (rewrite slice_length; lia).
rewrite (rolling_window_bounds s Hlo Hhi). cbv zeta.
split; [exact Hlen|]. split.
- intros Hnan. apply finite_values_missing in Hnan. rewrite Hlen in Hnan.
  destruct (Nat.leb_spec 30 (length (finite_values (slice (i - 15) (i + 15) s))));
    [lia|reflexivity].
- intros Hall. apply finite_values_all in Hall. rewrite Hlen in Hall.
  unfold count_R. rewrite Hall. reflexivity.
Qed.

Lemma rolling_window_mean_witness :
  15 <= 20 /\ 20 + 15 <= length constant_series /\
  length (slice (20 - 15) (20 + 15) constant_series) = 30.
Proof.
assert (H1 : 15 <= 20) by lia.
assert (H2 : 20 + 15 <= length constant_series) by (simpl; lia).
split; [exact H1|]. split; [exact H2|].
exact (proj1 (@rolling_window_mean constant_series 20 H1 H2)).
Defined.

Lemma derive_nth_PR_30MA (df : frame) (i : nat) (r : derived_row) :
  nth_error (derive df) i = Some r ->
  PR_30MA r = rolling_mean_at 30 (map PR df) i.
Proof.
intros Hr.
assert (Hi : i < length df).
{ rewrite <- (derive_length df). apply nth_error_Some. congruence. }
assert (H : nth_error (map PR_30MA (derive df)) i = Some (PR_30MA r))
  by (now apply map_nth_error).
rewrite derive_PR_30MA in H. unfold rolling_mean in H.
rewrite length_map in H.
rewrite (map_nth_error _ _ (seq 0 (length df)) (d := i)) in H.
- now injection H.
- rewrite nth_error_nth' with (d := 0) by (now rewrite length_seq).
  now rewrite seq_nth.
Qed.

(** X14: whatever the PR cells hold, the moving average of the returned
    frame is NaN on its first 15 rows and on its last 14 rows, and such a
    row contributes no point to the moving-average line. *)
Theorem moving_average_edges
  (df : frame) (s e : option Timestamp) (i : nat) (r : derived_row) :
  nth_error (out_df (create_visualization df s e)) i = Some r ->
  i < 15 \/ length (out_df (create_visualization df s e)) < i + 15 ->
  PR_30MA r = NaN /\
  ~ In r (valid_ma (out_df (create_visualization df s e))).
Proof.
unfold create_visualization. cbn [out_df].
set (kept := filter_dates s e df). intros Hr Hi.
assert (Hnan : PR_30MA r = NaN).
{ rewrite (derive_nth_PR_30MA kept i Hr). apply rolling_mean_edge.
  rewrite length_map. now rewrite derive_length in Hi. }
split; [exact Hnan|].
unfold valid_ma. rewrite filter_In, Hnan. simpl. intros [_ H]. discriminate.
Qed.

Lemma moving_average_edges_witness :
  nth_error (out_df (create_visualization sample_frame None None)) 1
    = Some sample_row /\
  (1 < 15 \/ length (out_df (create_visualization sample_frame None None)) < 1 + 15) /\
  PR_30MA sample_row = NaN.
Proof.
assert (H1 : nth_error (out_df (create_visualization sample_frame None None)) 1
             = Some sample_row).
{ unfold sample_row. apply nth_error_nth'.
  unfold create_visualization. cbn [out_df filter_dates].
  rewrite derive_length. simpl. lia. }
assert (H2 : 1 < 15 \/
             length (out_df (create_visualization sample_frame None None)) < 1 + 15)
  by (left; lia).
split; [exact H1|]. split; [exact H2|].
exact (proj1 (@moving_average_edges sample_frame None None 1 sample_row H1 H2)).
Defined.

Lemma valid_ma_short (df : frame) :
  length df < 30 -> valid_ma (derive df) = [].
Proof.
intros Hshort. unfold valid_ma.
destruct (filter _ (derive df)) as [|r rs] eqn:Hf; [reflexivity|exfalso].
assert (Hin : In r (filter (fun r => negb (is_nan (PR_30MA r))) (derive df)))
  by (rewrite Hf; now left).
apply filter_In in Hin. destruct Hin as [Hin Hv].
apply In_nth_error in Hin. destruct Hin as [i Hi].
rewrite (derive_nth_PR_30MA df i Hi) in Hv.
rewrite rolling_mean_edge in Hv; [discriminate|].
rewrite length_map. lia.
Qed.

(** X15: with fewer than 30 rows left after filtering, no rolling cell is
    defined and the chart has no moving-average line at all; the budget
    line still has one point per row. *)
Theorem short_series_has_no_moving_average
  (df : frame) (s e : option Timestamp) :
  length (filter_dates s e df) < 30 ->
  ma_line (create_visualization df s e) = [] /\
  Forall (fun r : derived_row => PR_30MA r = NaN)
         (out_df (create_visualization df s e)) /\
  length (budget_plot (create_visualization df s e)) =
    length (filter_dates s e df).
Proof.
intros Hshort. unfold create_visualization. cbn [ma_line out_df budget_plot].
split; [|split].
- now rewrite valid_ma_short.
- apply Forall_forall. intros r Hr. apply In_nth_error in Hr.
  destruct Hr as [i Hi]. rewrite (derive_nth_PR_30MA _ i Hi).
  apply rolling_mean_edge. rewrite length_map. lia.
- now rewrite length_map, derive_length.
Qed.

Lemma short_series_has_no_moving_average_witness :
  length (filter_dates None None sample_frame) < 30 /\
  ma_line (create_visualization sample_frame None None) = [].
Proof.
assert (H : length (filter_dates None None sample_frame) < 30) by (simpl; lia).
split; [exact H|].
exact (proj1 (@short_series_has_no_moving_average sample_frame None None H)).
Defined.

(** ** Colours, labels and the scatter plot *)

Lemma get_color_in_palette (g : float) : In (get_color g) palette.
Proof.
destruct g as [|x].
- unfold get_color. simpl. tauto.
- destruct (get_color_cases x) as [[_ ->]|[[_ ->]|[[_ ->]|[_ ->]]]];
    simpl; tauto.
Qed.

(** X16: every GHI cell, a missing one included, gets one of the four
    palette colours (a missing cell gets brown), so a legend label is never
    empty; a colour outside the palette has the empty label; and distinct
    palette colours have distinct labels. *)
Theorem colour_and_label_total :
  (forall g : float,
     In (get_color g) palette /\ get_ghi_range (get_color g) <> ""%string) /\
  get_color NaN = "brown"%string /\
  (forall c, ~ In c palette -> get_ghi_range c = ""%string) /\
  (forall c1 c2, In c1 palette -> In c2 palette ->
                 get_ghi_range c1 = get_ghi_range c2 -> c1 = c2).
Proof.
split; [|split; [reflexivity|split]].
- intros g. pose proof (get_color_in_palette g) as H. split; [exact H|].
  simpl in H. destruct H as [<-|[<-|[<-|[<-|[]]]]]; discriminate.
- intros c Hc. unfold get_ghi_range. simpl in Hc.
  destruct (String.eqb_spec c "navy"); [subst; tauto|].
  destruct (String.eqb_spec c "lightblue"); [subst; tauto|].
  destruct (String.eqb_spec c "orange"); [subst; tauto|].
  destruct (String.eqb_spec c "brown"); [subst; tauto|].
  reflexivity.
- intros c1 c2 H1 H2. simpl in H1, H2.
  destruct H1 as [<-|[<-|[<-|[<-|[]]]]];
    destruct H2 as [<-|[<-|[<-|[<-|[]]]]];
    intros H; try reflexivity; discriminate H.
Qed.

Lemma scatter_by_colour (df : list derived_row) :
  scatter df = flat_map (colour_series df) palette.
Proof. reflexivity. Qed.

Lemma colour_series_points (df : list derived_row) (c : String.string) :
  flat_map scatter_points (colour_series df c) =
  map (fun r : derived_row => (Date r, PR r))
      (filter (fun r => String.eqb (color r) c) df).
Proof.
unfold colour_series.
destruct (filter (fun r => String.eqb (color r) c) df); simpl;
  [reflexivity|now rewrite app_nil_r].
Qed.

Lemma colour_series_in (df : list derived_row) (c : String.string)
  (sc : scatter_series) :
  In sc (colour_series df c) <->
  filter (fun r => String.eqb (color r) c) df <> [] /\
  sc = mkScatter c (String.append "GHI: " (get_ghi_range c))
         (map (fun r : derived_row => (Date r, PR r))
              (filter (fun r => String.eqb (color r) c) df)).
Proof.
unfold colour_series.
destruct (filter (fun r => String.eqb (color r) c) df); simpl.
- split; [contradiction|]. intros [H _]. congruence.
- split.
  + intros [<-|[]]. split; [discriminate|reflexivity].
  + intros [_ ->]. now left.
Qed.

Lemma palette_counts (df : list derived_row) :
  (forall r, In r df -> In (color r) palette) ->
  length (filter (fun r => String.eqb (color r) "navy") df) +
  length (filter (fun r => String.eqb (color r) "lightblue") df) +
  length (filter (fun r => String.eqb (color r) "orange") df) +
  length (filter (fun r => String.eqb (color r) "brown") df) = length df.
Proof.
induction df as [|r df IH]; intros Hc; [reflexivity|].
assert (IH' := IH (fun x Hx => Hc x (or_intror Hx))).
pose proof (Hc r (or_introl eq_refl)) as Hr. cbn [filter].
simpl in Hr. destruct Hr as [Hr|[Hr|[Hr|[Hr|[]]]]]; rewrite <- Hr;
  cbn [String.eqb Ascii.eqb Bool.eqb length]; simpl; lia.
Qed.

(** X17: the scatter plot shows every row of the returned frame exactly
    once, in the series of its colour: the series together hold as many
    points as the frame has rows, no series is empty, each series carries a
    palette colour and the label of that colour, and no colour is drawn
    twice. *)
Theorem scatter_partitions_rows (df : frame) (s e : option Timestamp) :
  let v := create_visualization df s e in
  length (flat_map scatter_points (scatter_plot v)) = length (out_df v) /\
  (forall r, In r (out_df v) ->
     exists sc, In sc (scatter_plot v) /\ scatter_color sc = color r /\
                In (Date r, PR r) (scatter_points sc)) /\
  (forall sc, In sc (scatter_plot v) ->
     scatter_points sc <> [] /\ In (scatter_color sc) palette /\
     scatter_label sc =
       String.append "GHI: " (get_ghi_range (scatter_color sc)) /\
     scatter_points sc =
       map (fun r : derived_row => (Date r, PR r))
           (filter (fun r => String.eqb (color r) (scatter_color sc))
                   (out_df v))) /\
  NoDup (map scatter_color (scatter_plot v)).
Proof.
intros v. subst v. unfold create_visualization.
cbn [scatter_plot out_df]. set (rows := derive (filter_dates s e df)).
assert (Hpal : forall r, In r rows -> In (color r) palette).
{ intros r Hr. apply derive_in in Hr. destruct Hr as (_ & _ & _ & _ & Hc & _).
  rewrite Hc. apply get_color_in_palette. }
rewrite scatter_by_colour. split; [|split; [|split]].
- unfold palette. cbn [flat_map]. rewrite app_nil_r.
  rewrite !flat_map_app, !colour_series_points, !length_app, !length_map.
  rewrite <- (palette_counts rows Hpal). lia.
- intros r Hr.
  exists (mkScatter (color r)
            (String.append "GHI: " (get_ghi_range (color r)))
            (map (fun r : derived_row => (Date r, PR r))
                 (filter (fun x => String.eqb (color x) (color r)) rows))).
  assert (Hin : In r (filter (fun x => String.eqb (color x) (color r)) rows)).
  { apply filter_In. split; [assumption|apply String.eqb_refl]. }
  split; [|split; [reflexivity|]].
  + apply in_flat_map. exists (color r). split; [now apply Hpal|].
    apply colour_series_in. split; [|reflexivity].
    intros Hnil. rewrite Hnil in Hin. contradiction.
  + simpl. apply in_map_iff. exists r. auto.
- intros sc Hsc. apply in_flat_map in Hsc. destruct Hsc as (c & Hc & Hsc).
  apply colour_series_in in Hsc. destruct Hsc as [Hne ->]. simpl.
  repeat split; try assumption.
  intros Hnil. apply map_eq_nil in Hnil. contradiction.
- unfold palette. cbn [flat_map]. unfold colour_series.
  destruct (filter (fun r => String.eqb (color r) "navy") rows);
    destruct (filter (fun r => String.eqb (color r) "lightblue") rows);
    destruct (filter (fun r => String.eqb (color r) "orange") rows);
    destruct (filter (fun r => String.eqb (color r) "brown") rows);
    simpl; repeat constructor; simpl; intuition discriminate.
Qed.

(** ** Yearly counts add up *)

Lemma sum_nat_map_add (A : Type) (f g : A -> nat) (l : list A) :
  sum_nat (map (fun x => f x + g x) l) = sum_nat (map f l) + sum_nat (map g l).
Proof.
induction l as [|x l IH]; simpl; [reflexivity|]. rewrite IH. lia.
Qed.

Lemma sum_nat_indicator (keys : list Z) (y : Z) (k : nat) :
  NoDup keys ->
  sum_nat (map (fun z => if (y =? z)%Z then k else 0) keys) =
  if existsb (Z.eqb y) keys then k else 0.
Proof.
induction 1 as [|z keys Hz Hnd IH]; simpl; [reflexivity|].
rewrite IH. destruct (Z.eqb_spec y z) as [->|Hne]; simpl; [|reflexivity].
destruct (existsb (Z.eqb z) keys) eqn:Hex; [|lia].
apply existsb_exists in Hex. destruct Hex as (z' & Hin & Heq).
apply Z.eqb_eq in Heq. subst z'. contradiction.
Qed.

Lemma sum_nat_zero (A : Type) (l : list A) :
  sum_nat (map (fun _ => 0) l) = 0.
Proof. induction l as [|x l IH]; simpl; auto. Qed.

Lemma count_by_year (p : derived_row -> bool) (keys : list Z)
  (df : list derived_row) :
  NoDup keys -> (forall r, In r df -> In (year r) keys) ->
  sum_nat (map (fun y => length (filter p (filter (fun r => (year r =? y)%Z) df)))
               keys) =
  length (filter p df).
Proof.
intros Hnd. induction df as [|r df IH]; intros Hkeys.
- simpl. apply sum_nat_zero.
- assert (IH' := IH (fun x Hx => Hkeys x (or_intror Hx))).
  pose proof (Hkeys r (or_introl eq_refl)) as Hr.
  transitivity
    (sum_nat (map (fun y =>
        (if (year r =? y)%Z then (if p r then 1 else 0) else 0) +
        length (filter p (filter (fun r => (year r =? y)%Z) df))) keys)).
  + f_equal. apply map_ext. intros y. cbn [filter].
    destruct (year r =? y)%Z; [|reflexivity].
    cbn [filter]. now destruct (p r).
  + rewrite sum_nat_map_add, IH', (sum_nat_indicator _ _ Hnd).
    assert (Hex : existsb (Z.eqb (year r)) keys = true).
    { apply existsb_exists. exists (year r). split; [assumption|].
      apply Z.eqb_refl. }
    rewrite Hex. cbn [filter]. now destruct (p r).
Qed.

(** X18: the yearly counts add up to the number of rows of the whole frame
    that lie strictly above the budget, every reported year has at least one
    row, and no count exceeds the number of rows of its year. *)
Theorem yearly_counts_total (df : list derived_row) :
  sum_nat (map snd (yearly_stats df)) = above_budget df /\
  (forall y k, In (y, k) (yearly_stats df) ->
     1 <= length (filter (fun r => (year r =? y)%Z) df) /\
     k <= length (filter (fun r => (year r =? y)%Z) df)).
Proof.
split.
- unfold yearly_stats, above_budget. rewrite map_map. cbn [snd].
  apply count_by_year; [apply unique_nodup|].
  intros r Hr. apply unique_in. now apply in_map.
- intros y k Hin. unfold yearly_stats in Hin. apply in_map_iff in Hin.
  destruct Hin as (y' & [= <- <-] & Hy).
  apply (proj1 (unique_in _ _)) in Hy.
  apply in_map_iff in Hy. destruct Hy as (r & Hyr & Hr). split.
  + assert (Hf : In r (filter (fun r => (year r =? y')%Z) df)).
    { apply filter_In. split; [assumption|]. now apply Z.eqb_eq. }
    destruct (filter (fun r => (year r =? y')%Z) df); [contradiction|simpl; lia].
  + unfold above_budget. apply filter_length_le.
Qed.

(** ** Trailing windows *)

Lemma filter_length_mono (A : Type) (f g : A -> bool) (l : list A) :
  (forall x, f x = true -> g x = true) ->
  length (filter f l) <= length (filter g l).
Proof.
intros Hfg. induction l as [|x l IH]; simpl; [lia|].
destruct (f x) eqn:Hf.
- rewrite (Hfg x Hf). simpl. lia.
- destruct (g x); simpl; lia.
Qed.

Lemma last_days_nested (n m : Z) (df : list derived_row) :
  (n <= m)%Z ->
  incl (last_days n df) (last_days m df) /\
  length (last_days n df) <= length (last_days m df).
Proof.
intros Hnm. unfold last_days.
destruct (series_max (map (fun r : derived_row => Date r) df)) as [l|];
  simpl; [|split; [intros x []|lia]].
assert (Himp : forall r : derived_row,
          (l - timedelta n <? Date r)%Z = true ->
          (l - timedelta m <? Date r)%Z = true).
{ intros r. rewrite !Z.ltb_lt. unfold timedelta, day_ns. lia. }
split.
- intros r Hr. apply filter_In in Hr. apply filter_In.
  split; [tauto|]. apply Himp. tauto.
- now apply filter_length_mono.
Qed.

Lemma last_days_all (n : Z) (df : list derived_row) (l : Timestamp) :
  series_max (map (fun r : derived_row => Date r) df) = Some l ->
  (forall r : derived_row, In r df -> (l - timedelta n < Date r)%Z) ->
  last_days n df = df.
Proof.
intros Hl Hall. unfold last_days. rewrite Hl. simpl.
rewrite (filter_ext_in _ (fun _ => true)); [apply filter_true|].
intros r Hr. apply Z.ltb_lt. now apply Hall.
Qed.

(** X19: the three trailing windows are nested: every row of the 7-day
    window is in the 30-day window, every row of that one in the 60-day
    window, and all are rows of the frame; and when the whole series lies
    within the last 7 days, the three averages coincide with the mean of all
    PR cells. *)
Theorem trailing_windows_nested (df : list derived_row) :
  incl (last_days 7 df) (last_days 30 df) /\
  incl (last_days 30 df) (last_days 60 df) /\
  incl (last_days 60 df) df /\
  length (last_days 7 df) <= length (last_days 30 df) /\
  length (last_days 30 df) <= length (last_days 60 df) /\
  length (last_days 60 df) <= length df /\
  (forall l : Timestamp,
     series_max (map (fun r : derived_row => Date r) df) = Some l ->
     (forall r : derived_row, In r df -> (l - timedelta 7 < Date r)%Z) ->
     avg_day 7 df = series_mean (map (fun r : derived_row => PR r) df) /\
     avg_day 30 df = avg_day 7 df /\ avg_day 60 df = avg_day 7 df).
Proof.
destruct (@last_days_nested 7 30 df) as [Hi1 Hl1]; [lia|].
destruct (@last_days_nested 30 60 df) as [Hi2 Hl2]; [lia|].
repeat split; try assumption.
- unfold last_days, after.
  destruct (option_map _ _); [apply incl_filter|intros x []].
- unfold last_days, after.
  destruct (option_map _ _); [apply filter_length_le|simpl; lia].
- unfold avg_day. now rewrite (last_days_all 7 df H H0).
- unfold avg_day. rewrite (last_days_all 7 df H H0).
  rewrite (last_days_all 30 df H); [reflexivity|].
  intros r Hr. specialize (H0 r Hr). unfold timedelta, day_ns in *. lia.
- unfold avg_day. rewrite (last_days_all 7 df H H0).
  rewrite (last_days_all 60 df H); [reflexivity|].
  intros r Hr. specialize (H0 r Hr). unfold timedelta, day_ns in *. lia.
Qed.

(** ** Windows are parts of the series *)

Lemma in_firstn (A : Type) (n : nat) (l : list A) (x : A) :
  In x (firstn n l) -> In x l.
Proof.
intros H. rewrite <- (firstn_skipn n l). apply in_or_app. now left.
Qed.

Lemma in_skipn (A : Type) (n : nat) (l : list A) (x : A) :
  In x (skipn n l) -> In x l.
Proof.
intros H. rewrite <- (firstn_skipn n l). apply in_or_app. now right.
Qed.

Lemma in_slice (A : Type) (a b : nat) (l : list A) (x : A) :
  In x (slice a b l) -> In x l.
Proof.
unfold slice. intros H. apply in_firstn in H. now apply in_skipn in H.
Qed.

(** ** The year of a date is its Gregorian calendar year *)

Lemma days_to_year_brackets (d : Z) :
  (year_start (days_to_year d) <= d < year_start (days_to_year d + 1))%Z.
Proof.
unfold year_start, days_to_year, days_per_400years. cbv zeta.
change (400 * 365 + 100 - 4 + 1)%Z with 146097%Z.
change (100 * 365 + 25 - 1)%Z with 36524%Z.
change (4 * 365 + 1)%Z with 1461%Z.
change (365 * 30 + 7)%Z with 10957%Z.
repeat match goal with
       | |- context [(?x <=? ?y)%Z] => destruct (Z.leb_spec x y)
       end;
  Z.div_mod_to_equations; lia.
Qed.

Lemma year_start_mono (y1 y2 : Z) :
  (y1 <= y2)%Z -> (year_start y1 <= year_start y2)%Z.
Proof.
intros H. unfold year_start. Z.div_mod_to_equations. lia.
Qed.

Lemma year_length (y : Z) :
  (year_start (y + 1) - year_start y)%Z = if is_leap y then 366%Z else 365%Z.
Proof.
unfold year_start, is_leap.
replace (y + 1 - 1)%Z with y by lia.
destruct (Z.eqb_spec (y mod 4) 0), (Z.eqb_spec (y mod 100) 0),
         (Z.eqb_spec (y mod 400) 0); cbn [andb orb negb];
  Z.div_mod_to_equations; lia.
Qed.

Lemma days_to_year_iff (d y : Z) :
  days_to_year d = y <-> (year_start y <= d < year_start (y + 1))%Z.
Proof.
split; [intros <-; apply days_to_year_brackets|].
intros [Hlo Hhi]. pose proof (days_to_year_brackets d) as [Hlo' Hhi'].
destruct (Z.lt_trichotomy (days_to_year d) y) as [Hlt|[Heq|Hgt]];
  [exfalso|exact Heq|exfalso].
- pose proof (@year_start_mono (days_to_year d + 1) y). lia.
- pose proof (@year_start_mono (y + 1) (days_to_year d)). lia.
Qed.

Lemma dt_year_bounds (t : Timestamp) (y : Z) :
  dt_year t = y <->
  (year_start y * day_ns <= t < year_start (y + 1) * day_ns)%Z.
Proof.
unfold dt_year. rewrite days_to_year_iff.
generalize (year_start y) (year_start (y + 1)). intros a b.
unfold day_ns. Z.div_mod_to_equations. lia.
Qed.

(** X21: the year a row is counted under is the Gregorian calendar year of
    its date: the year is [y] exactly for the timestamps from 1 January of
    [y], 00:00, up to but not including 1 January of [y + 1], where years
    have 366 days when divisible by 4 and not by 100, or by 400, and 365
    otherwise, and 1970 starts at the epoch.  Timestamps before the epoch
    are covered. *)
Theorem dt_year_is_calendar_year :
  (forall (t : Timestamp) (y : Z),
     dt_year t = y <->
     (year_start y * day_ns <= t < year_start (y + 1) * day_ns)%Z) /\
  (forall y, (year_start (y + 1) - year_start y)%Z =
             if is_leap y then 366%Z else 365%Z) /\
  year_start 1970 = 0%Z.
Proof.
split; [|split; [exact year_length|reflexivity]].
intros t y. unfold dt_year. rewrite days_to_year_iff.
generalize (year_start y) (year_start (y + 1)). intros a b.
unfold day_ns. Z.div_mod_to_equations. lia.
Qed.

(** ** How many points the moving-average line has *)

Lemma filter_none (A : Type) (f : A -> bool) (l : list A) :
  (forall x, In x l -> f x = false) -> filter f l = [].
Proof.
induction l as [|x l IH]; intros H; simpl; [reflexivity|].
rewrite (H x (or_introl eq_refl)). apply IH.
intros y Hy. apply H. now right.
Qed.

Lemma filter_all (A : Type) (f : A -> bool) (l : list A) :
  (forall x, In x l -> f x = true) -> filter f l = l.
Proof.
intros H. rewrite (filter_ext_in f (fun _ => true)); [|exact H].
apply filter_true.
Qed.

Lemma full_window_count (n : nat) :
  30 <= n ->
  length (filter (fun i => (15 <=? i) && (i + 15 <=? n)) (seq 0 n)) = n - 29.
Proof.
intros Hn.
assert (Hseq : seq 0 n =
                seq 0 15 ++ seq 15 (n - 29) ++ seq (15 + (n - 29)) 14).
{ rewrite <- !seq_app. f_equal. lia. }
rewrite Hseq, !filter_app, !length_app.
rewrite (@filter_none _ _ (seq 0 15)), (@filter_all _ _ (seq 15 (n - 29))),
        (@filter_none _ _ (seq (15 + (n - 29)) 14)).
- rewrite length_seq. simpl. lia.
- intros i Hi. apply in_seq in Hi. apply andb_false_iff. right.
  apply Nat.leb_gt. lia.
- intros i Hi. apply in_seq in Hi. apply andb_true_iff.
  split; apply Nat.leb_le; lia.
- intros i Hi. apply in_seq in Hi. apply andb_false_iff. left.
  apply Nat.leb_gt. lia.
Qed.

Lemma rolling_defined (s : list float) (i : nat) :
  ~ In NaN s ->
  is_nan (rolling_mean_at 30 s i) = negb ((15 <=? i) && (i + 15 <=? length s)).
Proof.
intros Hs.
destruct (Nat.leb_spec 15 i) as [Hlo|Hlo];
  [destruct (Nat.leb_spec (i + 15) (length s)) as [Hhi|Hhi]|]; simpl.
- rewrite (rolling_window_bounds s Hlo Hhi). cbv zeta.
  rewrite finite_values_all, slice_length.
  + replace (Nat.min _ _) with 30 by lia. reflexivity.
  + intros Hin. apply Hs. now apply in_slice in Hin.
- rewrite rolling_mean_edge; [reflexivity|lia].
- rewrite rolling_mean_edge; [reflexivity|lia].
Qed.

Lemma filter_on_map_length (A B : Type) (f : A -> B) (q : B -> bool)
  (l : list A) :
  length (filter (fun a => q (f a)) l) = length (filter q (map f l)).
Proof. now rewrite filter_map_swap, length_map. Qed.

(** X22: when every PR cell of the filtered series holds a number and the
    series has [n >= 30] rows, the rolling mean is defined exactly on rows
    15 to [n - 15] (counting from 0), so the moving-average line has
    [n - 29] points. *)
Theorem moving_average_line_length (df : frame) (s e : option Timestamp) :
  (forall r, In r (filter_dates s e df) -> PR r <> NaN) ->
  30 <= length (filter_dates s e df) ->
  length (ma_line (create_visualization df s e)) =
    length (filter_dates s e df) - 29 /\
  (forall i r,
     nth_error (out_df (create_visualization df s e)) i = Some r ->
     (PR_30MA r <> NaN <->
      15 <= i /\ i + 15 <= length (filter_dates s e df))).
Proof.
intros Hnum Hlen. unfold create_visualization. cbn [ma_line out_df].
set (kept := filter_dates s e df) in *.
assert (Hs : ~ In NaN (map PR kept)).
{ intros Hin. apply in_map_iff in Hin. destruct Hin as (r & Hr & Hin).
  exact (Hnum r Hin Hr). }
split.
- rewrite length_map. unfold valid_ma.
  rewrite (filter_on_map_length PR_30MA (fun x => negb (is_nan x))).
  rewrite derive_PR_30MA. unfold rolling_mean.
  rewrite <- (filter_on_map_length (rolling_mean_at 30 (map PR kept))
                                   (fun x => negb (is_nan x))).
  rewrite length_map.
  rewrite (filter_ext _ (fun i => (15 <=? i) && (i + 15 <=? length kept))).
  + now apply full_window_count.
  + intros i. rewrite (@rolling_defined _ i Hs), length_map.
    apply negb_involutive.
- intros i r Hr. rewrite (@derive_nth_PR_30MA kept i r Hr).
  pose proof (@rolling_defined _ i Hs) as Hd. rewrite length_map in Hd.
  destruct (rolling_mean_at 30 (map PR kept) i) as [|x]; cbn [is_nan] in Hd.
  + symmetry in Hd. apply negb_true_iff in Hd. apply andb_false_iff in Hd.
    rewrite !Nat.leb_gt in Hd. split; [congruence|lia].
  + symmetry in Hd. apply negb_false_iff in Hd. apply andb_true_iff in Hd.
    rewrite !Nat.leb_le in Hd. split; [tauto|discriminate].
Qed.

Lemma moving_average_line_length_witness :
  (forall r, In r (filter_dates None None constant_frame) -> PR r <> NaN) /\
  30 <= length (filter_dates None None constant_frame) /\
  length (ma_line (create_visualization constant_frame None None)) = 11.
Proof.
assert (H1 : forall r, In r (filter_dates None None constant_frame) ->
                       PR r <> NaN).
{ intros r Hr. cbn [filter_dates] in Hr. unfold constant_frame in Hr.
  apply in_map_iff in Hr. destruct Hr as (i & <- & _). discriminate. }
assert (H2 : 30 <= length (filter_dates None None constant_frame)).
{ cbn [filter_dates]. unfold constant_frame.
  rewrite length_map, length_seq. lia. }
split; [exact H1|]. split; [exact H2|].
exact (proj1 (@moving_average_line_length constant_frame None None H1 H2)).
Defined.

(** ** Date order is carried from the PR files to the text box *)

Lemma StronglySorted_app_le (l1 l2 : list Z) :
  StronglySorted Z.le l1 -> StronglySorted Z.le l2 ->
  (forall x y, In x l1 -> In y l2 -> (x <= y)%Z) ->
  StronglySorted Z.le (l1 ++ l2).
Proof.
induction 1 as [|a l1 Hl1 IH Ha]; intros H2 Hle; simpl; [assumption|].
constructor.
- apply IH; [assumption|]. intros x y Hx Hy. apply Hle; [now right|assumption].
- apply Forall_app. split; [assumption|].
  apply Forall_forall. intros y Hy. apply Hle; [now left|assumption].
Qed.

Lemma StronglySorted_constant (d : Z) (l : list Z) :
  (forall x, In x l -> x = d) -> StronglySorted Z.le l.
Proof.
induction l as [|a l IH]; intros H; constructor.
- apply IH. intros x Hx. apply H. now right.
- apply Forall_forall. intros x Hx.
  rewrite (H a (or_introl eq_refl)), (H x (or_intror Hx)). lia.
Qed.

Lemma merge_dates_sorted (pr ghi : table) :
  Sorted Z.le (dates pr) -> StronglySorted Z.le (map Date (merge pr ghi)).
Proof.
intros Hs. apply Sorted_StronglySorted in Hs; [|exact Z.le_trans].
induction pr as [|l pr IH]; [constructor|].
simpl in Hs. inversion Hs as [|? ? Hs' Hall]; subst.
change (merge (l :: pr) ghi) with
  (map (fun r : Timestamp * float => mkRow (fst l) (snd r) (snd l))
       (filter (same_date (fst l)) ghi) ++ merge pr ghi).
rewrite map_app. apply StronglySorted_app_le.
- apply StronglySorted_constant with (fst l). intros x Hx.
  rewrite map_map in Hx. apply in_map_iff in Hx.
  destruct Hx as (r & <- & _). reflexivity.
- now apply IH.
- intros x y Hx Hy. rewrite map_map in Hx. apply in_map_iff in Hx.
  destruct Hx as (r & <- & _). simpl.
  apply in_map_iff in Hy. destruct Hy as (m & <- & Hm).
  apply merge_date_in_both in Hm. destruct Hm as [Hm _].
  rewrite Forall_forall in Hall. now apply Hall.
Qed.

Lemma years_sorted (l : list Timestamp) :
  StronglySorted Z.le l -> Sorted Z.le (map dt_year l).
Proof.
induction 1 as [|a l Hl IH Ha]; simpl; constructor; [assumption|].
destruct l as [|b l]; simpl; constructor.
apply dt_year_mono. rewrite Forall_forall in Ha. apply Ha. now left.
Qed.

(** X23: date order is carried through: when the concatenated PR table is in
    ascending date order, so is the merged frame (whatever the order of the
    GHI table), and the text box of the unfiltered run then lists the years
    in ascending order. *)
Theorem pr_order_reaches_text_box (pr ghi : table) :
  Sorted Z.le (dates pr) ->
  StronglySorted Z.le (map Date (merge pr ghi)) /\
  StronglySorted Z.lt
    (listed_years (text_box (create_visualization (merge pr ghi) None None))).
Proof.
intros Hs. pose proof (@merge_dates_sorted pr ghi Hs) as Hm.
split; [exact Hm|].
rewrite text_box_years. cbn [filter_dates].
apply unique_sorted. rewrite <- map_map. now apply years_sorted.
Qed.

Lemma pr_order_reaches_text_box_witness :
  Sorted Z.le (dates sample_pr) /\
  StronglySorted Z.le (map Date (merge sample_pr sample_ghi)).
Proof.
assert (H : Sorted Z.le (dates sample_pr)).
{ unfold sample_pr. simpl. repeat constructor. discriminate. }
split; [exact H|].
exact (proj1 (@pr_order_reaches_text_box sample_pr sample_ghi H)).
Defined.

(** ** Yearly counts are by calendar year of [Date] *)

Lemma assign_year_fixed (r : derived_row) :
  year r = dt_year (Date r) -> assign_year r = r.
Proof.
destruct r as [b ma d ys bl c y]. unfold assign_year. simpl.
now intros ->.
Qed.

Lemma yearly_statistics_example :
  yearly_statistics dated_example = [(2020%Z, 1); (2021%Z, 1)].
Proof.
assert (H1 : dt_year (timedelta 18262) = 2020%Z) by (vm_compute; reflexivity).
assert (H2 : dt_year (timedelta 18400) = 2020%Z) by (vm_compute; reflexivity).
assert (H3 : dt_year (timedelta 18628) = 2021%Z) by (vm_compute; reflexivity).
unfold yearly_statistics, dated_example, assign_year, dated_stat_row.
cbn [map base Date PR_30MA days_from_start years_from_start budget_line color].
rewrite H1, H2, H3.
unfold yearly_stats, above_budget.
cbn [map year unique filter Z.eqb Pos.eqb negb length PR base
     budget_line float_gt float_lt].
repeat match goal with
       | |- context [Rlt_dec ?a ?b] => destruct (Rlt_dec a b); try lra
       end.
reflexivity.
Qed.

